(** * CEI PDF signer: the Flask request handlers of [app.py]

  A shallow embedding of the route handlers of [src/app.py] and of the
  Python built-ins they rely on, followed by the properties of the
  handlers.  Third-party libraries (the PKCS#11 bindings, pyHanko, the
  file system, [json], [base64]) are not part of the repository: they
  appear as oracles, either as fields of an environment record or as
  section variables, and every statement quantifies over them. *)

From Stdlib Require Import ZArith List String Ascii Bool Lia Floats.
From stdpp Require Import base option gmap strings pretty.

Local Open Scope string_scope.
Local Open Scope Z_scope.

(** ** Python built-ins *)

Module Py.

(** Text is modelled as a sequence of 8-bit characters, read as the code
    points below 256. *)

(** [str.isspace] on one character. *)
Definition isspace (c : ascii) : bool :=
  let n := nat_of_ascii c in
  ((9 <=? n)%nat && (n <=? 13)%nat) || ((28 <=? n)%nat && (n <=? 32)%nat)
  || (n =? 133)%nat || (n =? 160)%nat.

Fixpoint lstrip (s : string) : string :=
  match s with
  | EmptyString => EmptyString
  | String c s' => if isspace c then lstrip s' else s
  end.

Definition rstrip (s : string) : string := String.rev (lstrip (String.rev s)).

(** [s.strip()] *)
Definition strip (s : string) : string := rstrip (lstrip s).

(** [c.upper()] on the ASCII letters; the other characters below 256
    either stay as they are or leave the ASCII range. *)
Definition upper_char (c : ascii) : ascii :=
  let n := nat_of_ascii c in
  if ((97 <=? n)%nat && (n <=? 122)%nat)%bool then ascii_of_nat (n - 32) else c.

Fixpoint upper (s : string) : string :=
  match s with
  | EmptyString => EmptyString
  | String c s' => String (upper_char c) (upper s')
  end.

(** [sub in s] on strings. *)
Fixpoint contains (sub s : string) : bool :=
  String.prefix sub s ||
  match s with
  | EmptyString => false
  | String _ s' => contains sub s'
  end.

(** [str(n)] for an integer. *)
Definition str_int (z : Z) : string := pretty z.

Definition is_digit (c : ascii) : bool :=
  let n := nat_of_ascii c in ((48 <=? n)%nat && (n <=? 57)%nat)%bool.

Definition digit_val (c : ascii) : Z := Z.of_nat (nat_of_ascii c) - 48.

(** The digits of an integer literal: one or more digits, single
    underscores allowed between two digits.  [prev] tells whether the
    previous character was a digit. *)
Fixpoint int_digits (prev : bool) (acc : Z) (s : string) : option Z :=
  match s with
  | EmptyString => if prev then Some acc else None
  | String c s' =>
      if is_digit c then int_digits true (10 * acc + digit_val c) s'
      else if (Ascii.eqb c "_" && prev)%bool then
        match s' with
        | String d _ => if is_digit d then int_digits false acc s' else None
        | EmptyString => None
        end
      else None
  end.

(** [int(s)] for a string, base 10: surrounding white space, an optional
    sign, digits.  [None] is [ValueError]. *)
Definition int_of_str (s : string) : option Z :=
  match strip s with
  | String "-" r => Z.opp <$> int_digits false 0 r
  | String "+" r => int_digits false 0 r
  | r => int_digits false 0 r
  end.

(** List indexing [l[i]] with Python's negative indices; [None] is
    [IndexError]. *)
Definition index {A} (l : list A) (i : Z) : option A :=
  let n := Z.of_nat (length l) in
  if (0 <=? i) && (i <? n) then nth_error l (Z.to_nat i)
  else if (- n <=? i) && (i <? 0) then nth_error l (Z.to_nat (n + i))
  else None.

End Py.

(** ** Paths ([os.path], POSIX flavour) *)

Module OsPath.

(** [a.endswith('/')] *)
Fixpoint endswith_sep (a : string) : bool :=
  match a with
  | EmptyString => false
  | String c EmptyString => Ascii.eqb c "/"
  | String _ a' => endswith_sep a'
  end.

(** [os.path.join(a, b)] *)
Definition join (a b : string) : string :=
  if String.prefix "/" b then b
  else if (String.eqb a "" || endswith_sep a)%bool then a ++ b
  else a ++ "/" ++ b.

(** [p.rfind(c)] for a one-character [c], counting from [i]; [-1] when
    [c] does not occur. *)
Fixpoint rfind_from (c : ascii) (p : string) (i : Z) : Z :=
  match p with
  | EmptyString => -1
  | String a p' =>
      let r := rfind_from c p' (i + 1) in
      if 0 <=? r then r else if Ascii.eqb a c then i else -1
  end.

Definition rfind (c : ascii) (p : string) : Z := rfind_from c p 0.

(** The loop of [genericpath._splitext] that skips the leading dots of
    the file name: [n] positions from [i] on, [true] as soon as one of
    them is not a dot. *)
Fixpoint has_non_dot (p : string) (i n : nat) : bool :=
  match n with
  | O => false
  | S n' =>
      match String.get i p with
      | Some c => if Ascii.eqb c "." then has_non_dot p (S i) n' else true
      | None => true
      end
  end.

(** [os.path.splitext(p)] *)
Definition splitext (p : string) : string * string :=
  let sepIndex := rfind "/" p in
  let dotIndex := rfind "." p in
  if (sepIndex <? dotIndex)
     && has_non_dot p (Z.to_nat (sepIndex + 1)) (Z.to_nat (dotIndex - (sepIndex + 1)))
  then (String.substring 0 (Z.to_nat dotIndex) p,
        String.substring (Z.to_nat dotIndex) (String.length p - Z.to_nat dotIndex) p)
  else (p, "").

End OsPath.

(** ** Values, exceptions and effects *)

#[local] Set Warnings "-register-all".

(** A decoded JSON value, as [request.json] and [json.loads] deliver it,
    and as [jsonify] takes it.  [JNull] is Python's [None]. *)
Inductive json : Type :=
| JNull
| JBool (b : bool)
| JInt (z : Z)
| JFloat (f : float)
| JStr (s : string)
| JList (l : list json)
| JDict (d : list (string * json)).

(** The exception classes the handlers tell apart: [PyKCS11.PyKCS11Error]
    (caught by [/api/certificate]), [pkcs11.PKCS11Error] (caught by
    [/api/sign]) and every other subclass of [Exception]. *)
Inductive exn_class : Type := PyKCS11Error | PKCS11Error | OtherError.

(** A raised exception: its class, [type(e).__name__] and [str(e)]. *)
Record exn : Type := Exn {
  exn_cls : exn_class;
  exn_type : string;
  exn_text : string
}.

(** Errors raised by the interpreter itself.  Where the text depends on
    the version of the interpreter it is that of CPython 3.12, and a
    string shown inside a text is put between single quotes as it is. *)
Definition quoted (s : string) : string := "'" ++ s ++ "'".
Definition ValueError (t : string) : exn := Exn OtherError "ValueError" t.
Definition TypeError (t : string) : exn := Exn OtherError "TypeError" t.
Definition AttributeError (type_name attr : string) : exn :=
  Exn OtherError "AttributeError"
    (quoted type_name ++ " object has no attribute " ++ quoted attr).
Definition KeyError (shown_key : string) : exn := Exn OtherError "KeyError" shown_key.
Definition IndexError (t : string) : exn := Exn OtherError "IndexError" t.

Inductive outcome (A : Type) : Type :=
| Ret (a : A)
| Raise (e : exn).
Arguments Ret {A} a.
Arguments Raise {A} e.

(** A rectangle [(x1, y1, x2, y2)] as handed to [SigFieldSpec]. *)
Definition box : Type := float * float * float * float.

(** What a handler does to the outside world, in order.  [EvOpenSession]
    and [EvLogin] record a call that returned; [EvLogout],
    [EvCloseSession], [EvAppendSigField], [EvSignPdf] and [EvReveal]
    record that the call is made, with its arguments. *)
Inductive event : Type :=
| EvOpenSession (slot : Z)
| EvLogin
| EvLogout
| EvCloseSession
| EvTraceback (e : exn)
| EvAppendSigField (page : Z) (b : box)
| EvSignPdf
| EvReveal (path : string).

(** A file: plain bytes, or a zip archive with its entries in the order
    they were written. *)
Inductive file : Type :=
| Plain (data : list Byte.byte)
| Zip (entries : list (string * list Byte.byte)).

(** The state a handler runs in: the events so far (most recent first),
    the file system, and the handler's local variable [session]
    ([true] when it holds a session object, [false] for [None]). *)
Record state : Type := State {
  log : list event;
  fs : gmap string file;
  session : bool
}.

Definition M (A : Type) : Type := state -> outcome A * state.

Definition ret {A} (a : A) : M A := fun s => (Ret a, s).
Definition raise {A} (e : exn) : M A := fun s => (Raise e, s).
Definition bind {A B} (m : M A) (k : A -> M B) : M B :=
  fun s => match m s with
           | (Ret a, s') => k a s'
           | (Raise e, s') => (Raise e, s')
           end.
Definition lift {A} (o : outcome A) : M A := fun s => (o, s).

Notation "x <- m ;; k" := (bind m (fun x => k))
  (at level 100, m at level 99, right associativity).
Notation "m ;;; k" := (bind m (fun _ => k))
  (at level 100, right associativity).

(** Sequencing of computations that only return or raise. *)
Definition obind {A B} (o : outcome A) (k : A -> outcome B) : outcome B :=
  match o with
  | Ret a => k a
  | Raise e => Raise e
  end.

Notation "x <~ o ;; k" := (obind o (fun x => k))
  (at level 100, o at level 99, right associativity).

(** [try: m except Exception as e: h e] *)
Definition try_except {A} (m : M A) (h : exn -> M A) : M A :=
  fun s => match m s with
           | (Ret a, s') => (Ret a, s')
           | (Raise e, s') => h e s'
           end.

(** [try: m finally: c]; an exception of [c] replaces the result. *)
Definition try_finally {A} (m : M A) (c : M unit) : M A :=
  fun s => match m s with
           | (r, s') =>
               match c s' with
               | (Ret _, s'') => (r, s'')
               | (Raise e, s'') => (Raise e, s'')
               end
           end.

(** [try: m except: pass] *)
Definition try_pass (m : M unit) : M unit :=
  try_except m (fun _ => ret tt).

Definition emit (e : event) : M unit :=
  fun s => (Ret tt, State (e :: log s) (fs s) (session s)).
Definition set_session (b : bool) : M unit :=
  fun s => (Ret tt, State (log s) (fs s) b).
Definition get_session : M bool := fun s => (Ret (session s), s).
Definition get_fs : M (gmap string file) := fun s => (Ret (fs s), s).
Definition put_file (path : string) (f : file) : M unit :=
  fun s => (Ret tt, State (log s) (<[path := f]> (fs s)) (session s)).

(** A call into a library whose result the environment decides; the
    environment sees the events so far. *)
Definition call {A} (f : list event -> outcome A) : M A :=
  fun s => (f (log s), s).

(** [traceback.print_exc()] *)
Definition print_exc (e : exn) : M unit := emit (EvTraceback e).

(** A Flask response: the JSON body and the HTTP status. *)
Definition response : Type := json * Z.

(** [jsonify(body)] alone answers with status 200. *)
Definition jsonify (body : list (string * json)) : json := JDict body.
Definition error_body (msg : string) : json := jsonify [("error", JStr msg)].

(** *** Operations on Python values *)

(** [bool(v)] *)
Definition truthy (v : json) : bool :=
  match v with
  | JNull => false
  | JBool b => b
  | JInt z => negb (z =? 0)
  | JFloat f => negb (PrimFloat.eqb f 0%float)
  | JStr s => negb (String.eqb s "")
  | JList l => match l with [] => false | _ => true end
  | JDict d => match d with [] => false | _ => true end
  end.

(** [type(v).__name__] *)
Definition type_name (v : json) : string :=
  match v with
  | JNull => "NoneType"
  | JBool _ => "bool"
  | JInt _ => "int"
  | JFloat _ => "float"
  | JStr _ => "str"
  | JList _ => "list"
  | JDict _ => "dict"
  end.

Fixpoint assoc (k : string) (d : list (string * json)) : option json :=
  match d with
  | [] => None
  | (k', v) :: d' => if String.eqb k k' then Some v else assoc k d'
  end.

(** [v.get(k, dflt)]: only dictionaries have [get]. *)
Definition py_get (v : json) (k : string) (dflt : json) : outcome json :=
  match v with
  | JDict d => Ret (default dflt (assoc k d))
  | _ => Raise (AttributeError (type_name v) "get")
  end.

(** [v[k]] for a string key. *)
Definition py_getitem (v : json) (k : string) : outcome json :=
  match v with
  | JDict d => match assoc k d with
               | Some x => Ret x
               | None => Raise (KeyError (quoted k))
               end
  | JList _ => Raise (TypeError "list indices must be integers or slices, not str")
  | JStr _ => Raise (TypeError "string indices must be integers, not 'str'")
  | _ => Raise (TypeError (quoted (type_name v) ++ " object is not subscriptable"))
  end.

(** [v[0]] *)
Definition py_getitem0 (v : json) : outcome json :=
  match v with
  | JList l => match l with
               | x :: _ => Ret x
               | [] => Raise (IndexError "list index out of range")
               end
  | JStr s => match s with
              | String c _ => Ret (JStr (String c EmptyString))
              | EmptyString => Raise (IndexError "string index out of range")
              end
  | JDict _ => Raise (KeyError "0")
  | _ => Raise (TypeError (quoted (type_name v) ++ " object is not subscriptable"))
  end.

(** [len(v)] *)
Definition py_len (v : json) : outcome Z :=
  match v with
  | JList l => Ret (Z.of_nat (length l))
  | JDict d => Ret (Z.of_nat (length d))
  | JStr s => Ret (Z.of_nat (String.length s))
  | _ => Raise (TypeError ("object of type " ++ quoted (type_name v) ++ " has no len()"))
  end.

Fixpoint chars (s : string) : list json :=
  match s with
  | EmptyString => []
  | String c s' => JStr (String c EmptyString) :: chars s'
  end.

(** The items [for x in v] runs over. *)
Definition py_iter (v : json) : outcome (list json) :=
  match v with
  | JList l => Ret l
  | JDict d => Ret (map (fun kv => JStr (fst kv)) d)
  | JStr s => Ret (chars s)
  | _ => Raise (TypeError (quoted (type_name v) ++ " object is not iterable"))
  end.

(** [k in v] for a string [k]. *)
Definition py_in (k : string) (v : json) : outcome bool :=
  match v with
  | JDict d => Ret (bool_decide (is_Some (assoc k d)))
  | JList l => Ret (existsb (fun x => match x with
                                      | JStr s => String.eqb s k
                                      | _ => false
                                      end) l)
  | JStr s => Ret (Py.contains k s)
  | _ => Raise (TypeError ("argument of type " ++ quoted (type_name v)
                           ++ " is not iterable"))
  end.

(** A value where the library wants a string (a path, a file name, text
    in base64). *)
Definition as_str (v : json) : outcome string :=
  match v with
  | JStr s => Ret s
  | _ => Raise (TypeError ("expected str, not " ++ type_name v))
  end.

(** [int(f)] for a float: truncation towards zero. *)
Definition int_of_float (f : float) : outcome Z :=
  match Prim2SF f with
  | S754_zero _ => Ret 0
  | S754_finite sg m e =>
      let a := if 0 <=? e then Z.shiftl (Z.pos m) e else Z.shiftr (Z.pos m) (- e) in
      Ret (if sg then - a else a)
  | S754_infinity _ => Raise (Exn OtherError "OverflowError" "cannot convert float infinity to integer")
  | S754_nan => Raise (ValueError "cannot convert float NaN to integer")
  end.

(** [int(v)] *)
Definition py_int (v : json) : outcome Z :=
  match v with
  | JInt z => Ret z
  | JBool b => Ret (if b then 1 else 0)
  | JFloat f => int_of_float f
  | JStr s => match Py.int_of_str s with
              | Some z => Ret z
              | None => Raise (ValueError ("invalid literal for int() with base 10: "
                                           ++ quoted s))
              end
  | _ => Raise (TypeError ("int() argument must be a string, a bytes-like object "
                           ++ "or a real number, not " ++ quoted (type_name v)))
  end.

(** [float(z)] for an integer: the nearest binary64 number. *)
Definition float_of_int (z : Z) : outcome float :=
  let f := SF2Prim (binary_normalize 53 1024 z 0 false) in
  if PrimFloat.is_infinity f
  then Raise (Exn OtherError "OverflowError" "int too large to convert to float")
  else Ret f.

(** ** Library functions

    Pure functions of the Python standard library and of third-party
    packages that the handlers call.  Their code is not part of the
    repository; the handlers are parametrised by them. *)
Record PyLib : Type := {
  (** [base64.b64encode(b).decode('ascii')] *)
  b64encode : list Byte.byte -> string;
  (** [base64.b64decode(s)] *)
  b64decode : string -> outcome (list Byte.byte);
  (** [json.loads(s)]; [None] when it raises *)
  json_loads : string -> option json;
  (** [float(s)] for a string; [None] is [ValueError] *)
  float_of_str : string -> option float;
  (** [str(v)] for floats, lists and dictionaries *)
  repr : json -> string;
  (** [b.decode('utf-8', errors='replace')] *)
  utf8_decode : list Byte.byte -> string;
  (** [x509.load_der_x509_certificate] and the reading of subject, issuer
      and expiry; [None] when any of it raises *)
  x509_parse : list Byte.byte -> option (string * string * string);
  (** [werkzeug.utils.secure_filename] *)
  secure_filename : string -> string
}.

(** [str(v)] *)
Definition py_str (L : PyLib) (v : json) : string :=
  match v with
  | JStr s => s
  | JInt z => Py.str_int z
  | JNull => "None"
  | JBool b => if b then "True" else "False"
  | _ => repr L v
  end.

(** [float(v)] *)
Definition py_float (L : PyLib) (v : json) : outcome float :=
  match v with
  | JFloat f => Ret f
  | JInt z => float_of_int z
  | JBool b => Ret (if b then 1%float else 0%float)
  | JStr s => match float_of_str L s with
              | Some f => Ret f
              | None => Raise (ValueError ("could not convert string to float: "
                                           ++ quoted s))
              end
  | _ => Raise (TypeError ("float() argument must be a string or a real number, not "
                           ++ quoted (type_name v)))
  end.

(** Process-wide configuration: the two import flags, [os.environ],
    [os.path.expanduser('~/Downloads')] and [app.config['UPLOAD_FOLDER']]. *)
Record Config : Type := {
  PKCS11_AVAILABLE : bool;
  PYHANKO_AVAILABLE : bool;
  environ : gmap string string;
  downloads_folder : string;
  upload_folder : string
}.

(** The label attribute of a certificate object as PyKCS11 hands it
    over: nothing, text, bytes, a sequence of byte values, or some other
    object given by its [str()]. *)
Inductive raw_label : Type :=
| LNone
| LStr (s : string)
| LBytes (b : list Byte.byte)
| LInts (l : list ascii)
| LOther (shown : string).

(** The PyKCS11 binding as [/api/certificate] uses it.  [Raise] is the
    call raising; a certificate object is a number. *)
Record PyKCS11Lib : Type := {
  kc_load : string -> list event -> outcome unit;
  kc_getSlotList : list event -> outcome (list Z);
  kc_openSession : Z -> list event -> outcome unit;
  kc_login : string -> list event -> outcome unit;
  kc_findObjects : list event -> outcome (list nat);
  kc_getAttributeValue : nat -> list event -> outcome (list Byte.byte * raw_label);
  kc_logout : list event -> outcome unit;
  kc_closeSession : list event -> outcome unit
}.

(** A page object of the document: its [/MediaBox] array when it has
    one, each number as [float()] reads it. *)
Record page : Type := { media_box : option (list float) }.

(** python-pkcs11 and pyHanko as [/api/sign] uses them.  [hk_reader]
    stands for [PdfFileReader(...)] and [IncrementalPdfFileWriter.from_reader];
    [hk_kids] for [pdf_reader.root['/Pages']['/Kids']]. *)
Record SignLib : Type := {
  pk_lib : string -> list event -> outcome unit;
  pk_get_slots : list event -> outcome (list Z);
  pk_get_token : Z -> list event -> outcome unit;
  pk_open : Z -> string -> list event -> outcome unit;
  pk_close : list event -> outcome unit;
  hk_signer : list event -> outcome unit;
  hk_reader : list Byte.byte -> list event -> outcome unit;
  hk_kids : list Byte.byte -> outcome (list page);
  hk_append_signature_field : Z -> box -> list event -> outcome unit;
  hk_sign_pdf : list Byte.byte -> string -> string -> option string ->
                list event -> outcome (list Byte.byte)
}.

(** The operating system: opening a file for writing, and
    [subprocess.run(['open', '-R', path], check=False)]. *)
Record OS : Type := {
  os_open_w : string -> list event -> outcome unit;
  os_reveal : string -> list event -> outcome unit
}.

(** An uploaded file of a multipart form. *)
Record upload : Type := { filename : string; content : list Byte.byte }.

(** A request to [/api/sign]: [request.files.get('pdf')] and
    [request.form]. *)
Record sign_request : Type := {
  files_pdf : option upload;
  form : gmap string string
}.

(** [request.form.get(k, dflt)] *)
Definition form_get (f : gmap string string) (k : string) (dflt : json) : json :=
  match f !! k with
  | Some s => JStr s
  | None => dflt
  end.

(** The double-quote character. *)
Definition dquote : string := String (ascii_of_nat 34) EmptyString.

Fixpoint join_with (sep : string) (l : list string) : string :=
  match l with
  | [] => ""
  | [x] => x
  | x :: l' => x ++ sep ++ join_with sep l'
  end.

(** [str(l)] for a list of integers. *)
Definition str_int_list (l : list Z) : string :=
  "[" ++ join_with ", " (map Py.str_int l) ++ "]".

(** ** The handlers *)

Definition DEFAULT_PKCS11_LIB : string :=
  "/Library/Application Support/com.idemia.idplug/lib/libidplug-pkcs11.2.7.0.dylib".

Section Handlers.

Variable L : PyLib.
Variable C : Config.
Variable K : PyKCS11Lib.
Variable P : SignLib.
Variable W : OS.

(** [os.environ.get('PKCS11_LIB', DEFAULT_PKCS11_LIB)] *)
Definition environ_lib_path : string :=
  default DEFAULT_PKCS11_LIB (environ C !! "PKCS11_LIB").

(** [get_pkcs11_lib_path(custom_path)]; [JNull] is the default argument
    [None].  A truthy value that is not a string has no [strip]. *)
Definition get_pkcs11_lib_path (custom_path : json) : outcome string :=
  if truthy custom_path then
    match custom_path with
    | JStr s =>
        if negb (String.eqb (Py.strip s) "") then Ret (Py.strip s)
        else Ret environ_lib_path
    | _ => Raise (AttributeError (type_name custom_path) "strip")
    end
  else Ret environ_lib_path.

(** [os.path.exists(p)] *)
Definition path_exists (files : gmap string file) (p : string) : bool :=
  bool_decide (is_Some (files !! p)).

(** [GET /api/status] *)
Definition api_status : M response :=
  lib_path <- lift (get_pkcs11_lib_path JNull) ;;
  files <- get_fs ;;
  ret (jsonify [("pkcs11_available", JBool (PKCS11_AVAILABLE C));
                ("pyhanko_available", JBool (PYHANKO_AVAILABLE C));
                ("pkcs11_lib_path", JStr lib_path);
                ("pkcs11_lib_exists", JBool (path_exists files lib_path))], 200).

(** The label of a certificate, from the attribute as read. *)
Definition decode_label (raw : raw_label) : string :=
  match raw with
  | LNone => "Unknown"
  | LStr s => if String.eqb s "" then "Unknown" else s
  | LBytes b => match b with [] => "Unknown" | _ => utf8_decode L b end
  | LInts l => match l with [] => "Unknown" | _ => string_of_list_ascii l end
  | LOther shown => shown
  end.

(** One entry of the certificate list: the full description when the
    certificate parses, label and DER otherwise. *)
Definition cert_entry (cert_der : list Byte.byte) (raw : raw_label) : json :=
  let label := decode_label raw in
  match x509_parse L cert_der with
  | Some (subject, issuer, not_after) =>
      jsonify [("label", JStr label);
               ("subject", JStr subject);
               ("issuer", JStr issuer);
               ("valid_until", JStr not_after);
               ("der_base64", JStr (b64encode L cert_der))]
  | None =>
      jsonify [("label", JStr label);
               ("der_base64", JStr (b64encode L cert_der))]
  end.

(** [for cert in certs: ...], appending to [cert_info]. *)
Fixpoint cert_loop (certs : list nat) (cert_info : list json) : M (list json) :=
  match certs with
  | [] => ret cert_info
  | cert :: rest =>
      attrs <- call (kc_getAttributeValue K cert) ;;
      cert_loop rest (cert_info ++ [cert_entry (fst attrs) (snd attrs)])
  end.

(** The [except PyKCS11.PyKCS11Error] clause of [/api/certificate]. *)
Definition cert_pkcs11_error (slot_id : Z) (error_msg : string) : response :=
  if Py.contains "CKR_PIN_INCORRECT" error_msg then
    (error_body "Incorrect PIN. Please check your PIN and try again.", 401)
  else if Py.contains "CKR_PIN_LOCKED" error_msg then
    (error_body "PIN is locked. Too many incorrect attempts.", 401)
  else if Py.contains "CKR_TOKEN_NOT_PRESENT" error_msg then
    (error_body "Smart card not detected. Please insert your CEI card.", 500)
  else if Py.contains "CKR_SLOT_ID_INVALID" error_msg then
    (error_body ("Invalid slot " ++ Py.str_int slot_id ++ ". Please click "
                 ++ dquote ++ "Detect Smart Card" ++ dquote
                 ++ " and select the correct slot."), 500)
  else if Py.contains "CKR_USER_NOT_LOGGED_IN" error_msg then
    (error_body "Session expired. Please try again.", 500)
  else (error_body ("Smart card error: " ++ error_msg), 500).

(** The [try] block of [/api/certificate]. *)
Definition cert_body (data : json) (slot_id : Z) (pin : string) : M response :=
  custom_path <- lift (py_get data "pkcs11_path" JNull) ;;
  lib_path <- lift (get_pkcs11_lib_path custom_path) ;;
  call (kc_load K lib_path) ;;;
  available_slots <- call (kc_getSlotList K) ;;
  if negb (existsb (Z.eqb slot_id) available_slots) then
    ret (error_body ("Slot " ++ Py.str_int slot_id
                     ++ " not available. Available slots: "
                     ++ str_int_list available_slots
                     ++ ". Please click " ++ dquote ++ "Detect Smart Card"
                     ++ dquote ++ " again."), 400)
  else
    call (kc_openSession K slot_id) ;;;
    emit (EvOpenSession slot_id) ;;;
    call (kc_login K pin) ;;;
    emit EvLogin ;;;
    certs <- call (kc_findObjects K) ;;
    cert_info <- cert_loop certs [] ;;
    emit EvLogout ;;;
    call (kc_logout K) ;;;
    emit EvCloseSession ;;;
    call (kc_closeSession K) ;;;
    ret (jsonify [("certificates", JList cert_info)], 200).

(** The two [except] clauses of [/api/certificate]. *)
Definition cert_handlers (slot_id : Z) (e : exn) : M response :=
  match exn_cls e with
  | PyKCS11Error => ret (cert_pkcs11_error slot_id (exn_text e))
  | _ =>
      print_exc e ;;;
      ret (error_body ("Error: " ++ exn_text e), 500)
  end.

(** [POST /api/certificate] with [request.json = data]. *)
Definition api_get_certificate (data : json) : M response :=
  if negb (PKCS11_AVAILABLE C) then
    ret (error_body "PyKCS11 not installed", 500)
  else if negb (truthy data) then
    ret (error_body "Invalid request data", 400)
  else
    slot_v <- lift (py_get data "slot" (JInt 2)) ;;
    slot_id <- lift (py_int slot_v) ;;
    pin_v <- lift (py_get data "pin" (JStr "")) ;;
    let pin := Py.strip (py_str L pin_v) in
    if String.eqb pin "" then ret (error_body "PIN required", 400)
    else try_except (cert_body data slot_id pin) (cert_handlers slot_id).

(** Where and how large the signature field is, as read from the form. *)
Record geometry : Type := {
  visible : bool;
  sig_page : Z;
  sig_x : float;
  sig_y : float;
  sig_width : float;
  sig_height : float
}.

(** The branch [if signature_boxes:] of [/api/sign]: page and geometry
    from one box [b = signature_boxes[0]]. *)
Definition box_geometry (b : json) : outcome geometry :=
  pg <~ obind (py_get b "page" (JInt 1)) py_int ;;
  x <~ obind (py_get b "x" (JInt 50)) (py_float L) ;;
  y <~ obind (py_get b "y" (JInt 50)) (py_float L) ;;
  w <~ obind (py_get b "width" (JInt 200)) (py_float L) ;;
  h <~ obind (py_get b "height" (JInt 70)) (py_float L) ;;
  Ret {| visible := true; sig_page := pg - 1;
         sig_x := x; sig_y := y; sig_width := w; sig_height := h |}.

(** The [else] branch: page and geometry from the form fields. *)
Definition fields_geometry (f : gmap string string) : outcome geometry :=
  let vis := String.eqb (default "true" (f !! "visible")) "true" in
  pg <~ py_int (form_get f "page" (JInt 1)) ;;
  x <~ py_float L (form_get f "x" (JInt 50)) ;;
  y <~ py_float L (form_get f "y" (JInt 50)) ;;
  w <~ py_float L (form_get f "width" (JInt 200)) ;;
  h <~ py_float L (form_get f "height" (JInt 70)) ;;
  Ret {| visible := vis; sig_page := pg - 1;
         sig_x := x; sig_y := y; sig_width := w; sig_height := h |}.

(** [signature_boxes]: the decoded form field, the empty list when the
    field does not decode. *)
Definition signature_boxes (f : gmap string string) : json :=
  match json_loads L (default "[]" (f !! "signature_boxes")) with
  | Some v => v
  | None => JList []
  end.

(** The reading of the signature box in [/api/sign]: the first element
    of [signature_boxes] when that is truthy, the single form fields
    otherwise. *)
Definition sign_geometry (f : gmap string string) : outcome geometry :=
  if truthy (signature_boxes f) then
    b <~ py_getitem0 (signature_boxes f) ;;
    box_geometry b
  else fields_geometry f.

(** [l[i]] in a computation. *)
Definition index_or_raise {A} (l : list A) (i : Z) : outcome A :=
  match Py.index l i with
  | Some a => Ret a
  | None => Raise (IndexError "list index out of range")
  end.

Definition DEFAULT_MEDIA_BOX : list float := [0; 0; 612; 792]%float.

(** The height of a page: [float(media_box[3]) - float(media_box[1])]. *)
Definition page_height_of (pg : page) : outcome float :=
  let mb := default DEFAULT_MEDIA_BOX (media_box pg) in
  top <~ index_or_raise mb 3 ;;
  bottom <~ index_or_raise mb 1 ;;
  Ret (top - bottom)%float.

(** The rectangle of the signature field on a page of height
    [page_height]. *)
Definition sig_field_box (g : geometry) (page_height : float) : box :=
  let pdf_y := (page_height - sig_y g - sig_height g)%float in
  (sig_x g, pdf_y, (sig_x g + sig_width g)%float, (pdf_y + sig_height g)%float).

(** [if visible: ...]: the signature field is appended. *)
Definition add_signature_field (pdf_data : list Byte.byte) (g : geometry) : M unit :=
  if visible g then
    kids <- lift (hk_kids P pdf_data) ;;
    page_obj <- lift (index_or_raise kids (sig_page g)) ;;
    page_height <- lift (page_height_of page_obj) ;;
    emit (EvAppendSigField (sig_page g) (sig_field_box g page_height)) ;;;
    call (hk_append_signature_field P (sig_page g) (sig_field_box g page_height))
  else ret tt.

(** [if session: session.close(); session = None] *)
Definition close_session : M unit :=
  s <- get_session ;;
  if s then
    emit EvCloseSession ;;;
    call (pk_close P) ;;;
    set_session false
  else ret tt.

(** The [try] block of [/api/sign]. *)
Definition sign_body (pdf_file : upload) (f : gmap string string) (slot_id : Z)
    (pin reason location contact : string) (g : geometry) : M response :=
  let pdf_data := content pdf_file in
  lib_path <- lift (get_pkcs11_lib_path (form_get f "pkcs11_path" JNull)) ;;
  call (pk_lib P lib_path) ;;;
  slots <- call (pk_get_slots P) ;;
  match find (Z.eqb slot_id) slots with
  | None =>
      ret (error_body ("Slot " ++ Py.str_int slot_id ++ " not found"), 400)
  | Some target_slot =>
      call (pk_get_token P target_slot) ;;;
      call (pk_open P target_slot pin) ;;;
      set_session true ;;;
      emit (EvOpenSession target_slot) ;;;
      call (hk_signer P) ;;;
      call (hk_reader P pdf_data) ;;;
      add_signature_field pdf_data g ;;;
      emit EvSignPdf ;;;
      output_data <- call (hk_sign_pdf P pdf_data reason location
                             (if String.eqb contact "" then None else Some contact)) ;;
      close_session ;;;
      let output_filename := "signed_" ++ secure_filename L (filename pdf_file) in
      let output_path := OsPath.join (upload_folder C) output_filename in
      call (os_open_w W output_path) ;;;
      put_file output_path (Plain output_data) ;;;
      ret (jsonify [("success", JBool true);
                    ("filename", JStr output_filename);
                    ("data", JStr (b64encode L output_data));
                    ("size", JInt (Z.of_nat (length output_data)))], 200)
  end.

(** The two [except] clauses of [/api/sign]. *)
Definition sign_handlers (e : exn) : M response :=
  match exn_cls e with
  | PKCS11Error =>
      let error_msg := exn_text e in
      let error_type := exn_type e in
      if Py.contains "PIN" (Py.upper error_msg) then
        ret (error_body "Incorrect PIN or PIN locked", 401)
      else
        ret (error_body ("Smart card error (" ++ error_type ++ "): " ++ error_msg), 500)
  | _ =>
      print_exc e ;;;
      let error_type := exn_type e in
      let error_msg := if String.eqb (exn_text e) "" then error_type else exn_text e in
      ret (error_body (error_type ++ ": " ++ error_msg), 500)
  end.

(** The [finally] clause of [/api/sign]. *)
Definition sign_finally : M unit :=
  s <- get_session ;;
  if s then try_pass (emit EvCloseSession ;;; call (pk_close P)) else ret tt.

(** [POST /api/sign] *)
Definition api_sign_pdf (rq : sign_request) : M response :=
  if negb (PYHANKO_AVAILABLE C) then
    ret (error_body "pyHanko not installed", 500)
  else
    match files_pdf rq with
    | None => ret (error_body "No PDF file provided", 400)
    | Some pdf_file =>
        let f := form rq in
        slot_id <- lift (py_int (form_get f "slot" (JInt 2))) ;;
        let pin := Py.strip (py_str L (form_get f "pin" (JStr ""))) in
        let reason := default "Document signed with Romanian CEI" (f !! "reason") in
        let location := default "Romania" (f !! "location") in
        let contact := default "" (f !! "contact") in
        g <- lift (sign_geometry f) ;;
        if String.eqb pin "" then ret (error_body "PIN required", 400)
        else
          set_session false ;;;
          try_finally
            (try_except (sign_body pdf_file f slot_id pin reason location contact g)
                        sign_handlers)
            sign_finally
    end.

(** The loop [while os.path.exists(file_path): file_path =
    f"{base}_{counter}{ext}"; counter += 1], run for at most [fuel]
    tests; [None] when the fuel runs out. *)
Fixpoint unique_path_loop (fuel : nat) (files : gmap string file)
    (base ext file_path : string) (counter : Z) : option string :=
  match fuel with
  | O => None
  | S fuel' =>
      if path_exists files file_path then
        unique_path_loop fuel' files base ext
          (base ++ "_" ++ Py.str_int counter ++ ext) (counter + 1)
      else Some file_path
  end.

(** The de-duplication of a file name.  One test more than there are
    files always suffices ([unique_path_loop_total]), so the last case
    is never taken. *)
Definition unique_path (file_path : string) : M string :=
  files <- get_fs ;;
  let '(base, ext) := OsPath.splitext file_path in
  match unique_path_loop (S (size files)) files base ext file_path 1 with
  | Some p => ret p
  | None => raise (Exn OtherError "RecursionError" "")
  end.

(** [zf.writestr(name, file_bytes)] on the archive at [zip_path]. *)
Definition zip_writestr (zip_path name : string) (file_bytes : list Byte.byte) : M unit :=
  files <- get_fs ;;
  match files !! zip_path with
  | Some (Zip entries) => put_file zip_path (Zip (entries ++ [(name, file_bytes)]))
  | _ => raise (ValueError "Attempt to write to ZIP archive that was already closed")
  end.

(** [for file_info in files_data: ...] inside the [with ZipFile] block. *)
Fixpoint zip_loop (zip_path : string) (items : list json) : M unit :=
  match items with
  | [] => ret tt
  | file_info :: rest =>
      data_v <- lift (py_getitem file_info "data") ;;
      file_bytes <- lift (obind (as_str data_v) (b64decode L)) ;;
      name <- lift (obind (py_getitem file_info "name") as_str) ;;
      zip_writestr zip_path name file_bytes ;;;
      zip_loop zip_path rest
  end.

Definition saved_response (path : string) : response :=
  (jsonify [("success", JBool true); ("saved_files", JList [JStr path])], 200).

(** The [try] block of [/api/save-files]. *)
Definition save_body (files_data : json) : M response :=
  n <- lift (py_len files_data) ;;
  if n =? 1 then
    file_info <- lift (py_getitem0 files_data) ;;
    name <- lift (obind (py_getitem file_info "name") as_str) ;;
    file_path <- unique_path (OsPath.join (downloads_folder C) name) ;;
    data_v <- lift (py_getitem file_info "data") ;;
    file_bytes <- lift (obind (as_str data_v) (b64decode L)) ;;
    call (os_open_w W file_path) ;;;
    put_file file_path (Plain file_bytes) ;;;
    emit (EvReveal file_path) ;;;
    call (os_reveal W file_path) ;;;
    ret (saved_response file_path)
  else
    zip_path <- unique_path (OsPath.join (downloads_folder C) "signed_documents.zip") ;;
    call (os_open_w W zip_path) ;;;
    put_file zip_path (Zip []) ;;;
    items <- lift (py_iter files_data) ;;
    zip_loop zip_path items ;;;
    emit (EvReveal zip_path) ;;;
    call (os_reveal W zip_path) ;;;
    ret (saved_response zip_path).

(** [POST /api/save-files] with [request.json = data]. *)
Definition api_save_files (data : json) : M response :=
  if negb (truthy data) then ret (error_body "No files provided", 400)
  else
    has_files <- lift (py_in "files" data) ;;
    if negb has_files then ret (error_body "No files provided", 400)
    else
      files_data <- lift (py_getitem data "files") ;;
      try_except (save_body files_data)
        (fun e => print_exc e ;;; ret (error_body (exn_text e), 500)).

End Handlers.

(** *** [/api/slots] *)

(** What the handler reads of [lib.getTokenInfo(slot_id)]. *)
Record token_info : Type := {
  ti_label : string;
  ti_model : string;
  ti_manufacturerID : string
}.

(** [lib.getTokenInfo], the one call of PyKCS11 that only [/api/slots]
    makes. *)
Record PyKCS11Info : Type := {
  kc_getTokenInfo : Z -> list event -> outcome token_info
}.

Section Slots.

Variable C : Config.
Variable K : PyKCS11Lib.
Variable T : PyKCS11Info.

(** The body of [for slot_id in slots]: the description of one slot,
    or the placeholder when reading the token information raises. *)
Definition slot_entry (slot_id : Z) : M json :=
  try_except
    (info <- call (kc_getTokenInfo T slot_id) ;;
     ret (jsonify [("id", JInt slot_id);
                   ("label", JStr (Py.strip (ti_label info)));
                   ("model", JStr (Py.strip (ti_model info)));
                   ("manufacturer", JStr (Py.strip (ti_manufacturerID info)))]))
    (fun _ =>
       ret (jsonify [("id", JInt slot_id);
                     ("label", JStr ("Slot " ++ Py.str_int slot_id));
                     ("model", JStr "Unknown");
                     ("manufacturer", JStr "Unknown")])).

Fixpoint slots_loop (slots : list Z) (slot_info : list json) : M (list json) :=
  match slots with
  | [] => ret slot_info
  | slot_id :: rest =>
      entry <- slot_entry slot_id ;;
      slots_loop rest (slot_info ++ [entry])
  end.

(** [jsonify({'slots': [], 'error': msg})] *)
Definition slots_error (msg : string) : response :=
  (jsonify [("slots", JList []); ("error", JStr msg)], 200).

(** [GET /api/slots]; [custom_path] is [request.args.get('pkcs11_path')]. *)
Definition api_slots (custom_path : option string) : M response :=
  if negb (PKCS11_AVAILABLE C) then ret (slots_error "PyKCS11 not installed")
  else
    lib_path <- lift (get_pkcs11_lib_path C
                        (match custom_path with Some p => JStr p | None => JNull end)) ;;
    files <- get_fs ;;
    if negb (path_exists files lib_path) then
      ret (slots_error ("PKCS11 library not found at: " ++ lib_path))
    else
      try_except
        (call (kc_load K lib_path) ;;;
         slots <- call (kc_getSlotList K) ;;
         match slots with
         | [] => ret (slots_error "No smart card detected")
         | _ =>
             slot_info <- slots_loop slots [] ;;
             ret (jsonify [("slots", JList slot_info)], 200)
         end)
        (fun e =>
           match exn_cls e with
           | PyKCS11Error => ret (slots_error ("Smart card error: " ++ exn_text e))
           | _ => ret (slots_error ("Error: " ++ exn_text e))
           end).

End Slots.

(** ** A sample installation

    One concrete choice of libraries, configuration, token and operating
    system, on which the handlers can be run.  The general statements
    below hold for every choice; this one serves to exhibit runs. *)

Module Sample.

(** Integers written in decimal, as floats. *)
Definition float_of_digits (s : string) : option float :=
  z ← Py.int_of_str s; Some (SF2Prim (binary_normalize 53 1024 z 0 false)).

#[local] Set Warnings "-inexact-float".

(** The text of a list of one box that gives [y] and [height]. *)
Definition boxes_text : string :=
  "[{" ++ dquote ++ "y" ++ dquote ++ ": 0.1, "
       ++ dquote ++ "height" ++ dquote ++ ": 128.2}]".

(** Knows the empty list, lists of one or two empty objects, and
    [boxes_text]. *)
Definition loads (s : string) : option json :=
  if String.eqb s "[]" then Some (JList [])
  else if String.eqb s "[{}]" then Some (JList [JDict []])
  else if String.eqb s "[{}, {}]" then Some (JList [JDict []; JDict []])
  else if String.eqb s boxes_text then
    Some (JList [JDict [("y", JFloat 0.1); ("height", JFloat 128.2)]])
  else None.

(** The encoder and decoder keep the bytes as they are; certificates
    with an empty encoding do not parse. *)
Definition lib : PyLib := {|
  b64encode := string_of_list_byte;
  b64decode := fun s => Ret (list_byte_of_string s);
  json_loads := loads;
  float_of_str := float_of_digits;
  repr := fun _ => "?";
  utf8_decode := string_of_list_byte;
  x509_parse := fun der =>
    match der with
    | [] => None
    | _ => Some ("CN=Ion Popescu", "CN=MAI CA", "2030-01-01T00:00:00+00:00")
    end;
  secure_filename := fun s => s
|}.

Definition config : Config := {|
  PKCS11_AVAILABLE := true;
  PYHANKO_AVAILABLE := true;
  environ := ∅;
  downloads_folder := "/Users/ion/Downloads";
  upload_folder := "/tmp/upload"
|}.

Definition pin_incorrect : exn :=
  Exn PyKCS11Error "PyKCS11Error" "CKR_PIN_INCORRECT (0x000000A0)".

(** A token in slot 1 whose PIN is 1234, holding one certificate that
    parses (object 0) and one that does not (object 1). *)
Definition token : PyKCS11Lib := {|
  kc_load := fun _ _ => Ret tt;
  kc_getSlotList := fun _ => Ret [1];
  kc_openSession := fun _ _ => Ret tt;
  kc_login := fun pin _ => if String.eqb pin "1234" then Ret tt else Raise pin_incorrect;
  kc_findObjects := fun _ => Ret [0%nat; 1%nat];
  kc_getAttributeValue := fun c _ =>
    match c with
    | O => Ret ([Byte.x30; Byte.x31], LStr "Certificate ECC Advanced Signature")
    | _ => Ret ([], LNone)
    end;
  kc_logout := fun _ => Ret tt;
  kc_closeSession := fun _ => Ret tt
|}.

Definition pin_error : exn := Exn PKCS11Error "PinIncorrect" "pin incorrect".

(** The same token seen through python-pkcs11, and a document of one
    page without a media box.  Signing returns the document as it is. *)
Definition signer : SignLib := {|
  pk_lib := fun _ _ => Ret tt;
  pk_get_slots := fun _ => Ret [1];
  pk_get_token := fun _ _ => Ret tt;
  pk_open := fun _ pin _ => if String.eqb pin "1234" then Ret tt else Raise pin_error;
  pk_close := fun _ => Ret tt;
  hk_signer := fun _ => Ret tt;
  hk_reader := fun _ _ => Ret tt;
  hk_kids := fun _ => Ret [{| media_box := None |}];
  hk_append_signature_field := fun _ _ _ => Ret tt;
  hk_sign_pdf := fun pdf _ _ _ _ => Ret pdf
|}.

(** A signing library whose [sign_pdf] fails after the session is open. *)
Definition failing_signer : SignLib := {|
  pk_lib := fun _ _ => Ret tt;
  pk_get_slots := fun _ => Ret [1];
  pk_get_token := fun _ _ => Ret tt;
  pk_open := fun _ _ _ => Ret tt;
  pk_close := fun _ => Ret tt;
  hk_signer := fun _ => Ret tt;
  hk_reader := fun _ _ => Ret tt;
  hk_kids := fun _ => Ret [{| media_box := None |}];
  hk_append_signature_field := fun _ _ _ => Ret tt;
  hk_sign_pdf := fun _ _ _ _ _ => Raise (Exn OtherError "SigningError" "no key")
|}.

Definition os : OS := {|
  os_open_w := fun _ _ => Ret tt;
  os_reveal := fun _ _ => Ret tt
|}.

(** No events yet, an empty file system. *)
Definition init : state := State [] ∅ false.

(** A Downloads folder that already holds [signed_documents.zip]. *)
Definition busy : state :=
  State [] {[ "/Users/ion/Downloads/signed_documents.zip" := Zip [] ]} false.

Definition cert_request (slot pin : json) : json :=
  JDict [("slot", slot); ("pin", pin)].

Definition sign_form (fields : list (string * string)) : sign_request :=
  {| files_pdf := Some {| filename := "a.pdf"; content := [Byte.x25; Byte.x50] |};
     form := list_to_map fields |}.

End Sample.

(** The sample installation seen by [/api/slots]: the driver file is in
    place, and the token in slot 1 tells its name while slot 3 does not. *)
Module SampleSlots.

Definition config : Config := {|
  PKCS11_AVAILABLE := true;
  PYHANKO_AVAILABLE := true;
  environ := {[ "PKCS11_LIB" := "/usr/lib/libidplug.so" ]};
  downloads_folder := "/Users/ion/Downloads";
  upload_folder := "/tmp/upload"
|}.

Definition installed : state :=
  State [] {[ "/usr/lib/libidplug.so" := Plain [] ]} false.

Definition reader : PyKCS11Lib := {|
  kc_load := fun _ _ => Ret tt;
  kc_getSlotList := fun _ => Ret [1; 3];
  kc_openSession := fun _ _ => Ret tt;
  kc_login := fun _ _ => Ret tt;
  kc_findObjects := fun _ => Ret [];
  kc_getAttributeValue := fun _ _ => Ret ([], LNone);
  kc_logout := fun _ => Ret tt;
  kc_closeSession := fun _ => Ret tt
|}.

Definition info : PyKCS11Info := {|
  kc_getTokenInfo := fun slot_id _ =>
    if slot_id =? 1 then
      Ret {| ti_label := "CEI ROMANIA      "; ti_model := "ID-One  ";
             ti_manufacturerID := "IDEMIA   " |}
    else Raise (Exn PyKCS11Error "PyKCS11Error" "CKR_TOKEN_NOT_RECOGNIZED (0x000000E1)")
|}.

End SampleSlots.

(** ** Vocabulary of the statements *)

(** No session is left open by the events [new] (most recent first):
    the latest event about a session, if there is one, is the call of
    its [close]. *)
Fixpoint closed (new : list event) : bool :=
  match new with
  | [] => true
  | EvCloseSession :: _ => true
  | EvOpenSession _ :: _ => false
  | _ :: l => closed l
  end.

(** A computation keeps a property of the state, however it ends. *)
Definition preserves {A} (I : state -> Prop) (m : M A) : Prop :=
  forall s, I s -> I (snd (m s)).

(** Since the state [s0], the events [new] have happened and no session
    is open unless the variable [session] holds it. *)
Definition session_tracked (s0 s : state) : Prop :=
  exists new, log s = (new ++ log s0)%list /\ (session s = false -> closed new = true).

(** [/api/certificate] gets as far as its [try] block, with these values
    of [slot_id] and [pin]. *)
Definition cert_reads (L : PyLib) (C : Config) (data : json) (slot_id : Z)
    (pin : string) : Prop :=
  PKCS11_AVAILABLE C = true
  /\ truthy data = true
  /\ obind (py_get data "slot" (JInt 2)) py_int = Ret slot_id
  /\ (exists pin_v, py_get data "pin" (JStr "") = Ret pin_v
                    /\ pin = Py.strip (py_str L pin_v))
  /\ pin <> "".

(** [/api/sign] gets as far as its [try] block, with this upload and
    these values of [slot_id], [pin] and the geometry. *)
Definition sign_reads (L : PyLib) (C : Config) (rq : sign_request)
    (pdf_file : upload) (slot_id : Z) (pin : string) (g : geometry) : Prop :=
  PYHANKO_AVAILABLE C = true
  /\ files_pdf rq = Some pdf_file
  /\ py_int (form_get (form rq) "slot" (JInt 2)) = Ret slot_id
  /\ pin = Py.strip (py_str L (form_get (form rq) "pin" (JStr "")))
  /\ sign_geometry L (form rq) = Ret g
  /\ pin <> "".

(** The [try] block of [/api/sign] on a request. *)
Definition sign_try (L : PyLib) (C : Config) (P : SignLib) (W : OS)
    (rq : sign_request) (pdf_file : upload) (slot_id : Z) (pin : string)
    (g : geometry) : M response :=
  sign_body L C P W pdf_file (form rq) slot_id pin
    (default "Document signed with Romanian CEI" (form rq !! "reason"))
    (default "Romania" (form rq !! "location"))
    (default "" (form rq !! "contact")) g.

(** The state in which the [try] block of [/api/sign] starts. *)
Definition sign_start (s : state) : state := State (log s) (fs s) false.

(** The text of an error names a PKCS#11 return code. *)
Definition mentions (code error_msg : string) : Prop :=
  Py.contains code error_msg = true.

(** [/api/save-files] gets as far as its [try] block, with this value of
    [files_data]. *)
Definition save_reads (data files_data : json) : Prop :=
  truthy data = true
  /\ py_in "files" data = Ret true
  /\ py_getitem data "files" = Ret files_data.


(** The [counter]-th name the de-duplication loop tries. *)
Definition candidate (base ext : string) (counter : Z) : string :=
  base ++ "_" ++ Py.str_int counter ++ ext.

(** [p] is the de-duplicated form of [path] among [files]: no file has
    that name, and it is [path] itself, or [path] is taken and [p] is
    the first free name in the sequence [base_1ext], [base_2ext], ...,
    where [(base, ext)] is [path] split at its extension. *)
Definition deduplicated (files : gmap string file) (path p : string) : Prop :=
  files !! p = None
  /\ (p = path
      \/ exists j, 1 <= j
                   /\ p = candidate (fst (OsPath.splitext path)) (snd (OsPath.splitext path)) j
                   /\ is_Some (files !! path)
                   /\ forall i, 1 <= i < j ->
                                is_Some (files !! candidate (fst (OsPath.splitext path))
                                                            (snd (OsPath.splitext path)) i)).

(** An element of [files] that yields the entry [(name, file_bytes)]:
    its [data] decodes from base64 and its [name] is a string. *)
Definition file_entry (L : PyLib) (file_info : json)
    (entry : string * list Byte.byte) : Prop :=
  obind (py_getitem file_info "data") (fun v => obind (as_str v) (b64decode L))
  = Ret (snd entry)
  /\ obind (py_getitem file_info "name") as_str = Ret (fst entry).


(** A folder as the prefix of the paths of its files: with a closing
    separator, unless it is empty. *)
Definition dir_prefix (d : string) : string :=
  if (String.eqb d "" || OsPath.endswith_sep d)%bool then d else d ++ "/".

(** The entry of [/api/slots] for [slot_id], the events so far being
    [l]: id, label, model and manufacturer of the token, stripped, or
    the placeholder when reading them raises. *)
Definition slot_described (T : PyKCS11Info) (l : list event) (slot_id : Z)
    (entry : json) : Prop :=
  match kc_getTokenInfo T slot_id l with
  | Ret info =>
      entry = jsonify [("id", JInt slot_id);
                       ("label", JStr (Py.strip (ti_label info)));
                       ("model", JStr (Py.strip (ti_model info)));
                       ("manufacturer", JStr (Py.strip (ti_manufacturerID info)))]
  | Raise _ =>
      entry = jsonify [("id", JInt slot_id);
                       ("label", JStr ("Slot " ++ Py.str_int slot_id));
                       ("model", JStr "Unknown");
                       ("manufacturer", JStr "Unknown")]
  end.

(** Whenever the computation returns, its value satisfies [Q]. *)
Definition returns {A} (Q : A -> Prop) (m : M A) : Prop :=
  forall s a s', m s = (Ret a, s') -> Q a.

(** The computation never raises, and its value satisfies [Q]. *)
Definition answers {A} (Q : A -> Prop) (m : M A) : Prop :=
  forall s, exists a s', m s = (Ret a, s') /\ Q a.

(** The status of a response is one of [codes]. *)
Definition status_in (codes : list Z) (r : response) : Prop := In (snd r) codes.

(** The call that appends a signature field. *)
Definition is_field_event (e : event) : Prop :=
  match e with
  | EvAppendSigField _ _ => True
  | _ => False
  end.

(** Since the state [s0] only events that satisfy [Q] have happened. *)
Definition emits_only (Q : event -> Prop) (s0 s : state) : Prop :=
  exists new, log s = (new ++ log s0)%list /\ Forall Q new.

(** An element of [files] that cannot be read: decoding its [data]
    raises [e], or its data decodes and reading its [name] raises [e]. *)
Definition file_entry_fails (L : PyLib) (file_info : json) (e : exn) : Prop :=
  obind (py_getitem file_info "data") (fun v => obind (as_str v) (b64decode L))
  = Raise e
  \/ ((exists file_bytes,
         obind (py_getitem file_info "data") (fun v => obind (as_str v) (b64decode L))
         = Ret file_bytes)
      /\ obind (py_getitem file_info "name") as_str = Raise e).

(** ** Properties *)

(** *** Strings *)

Lemma append_cons (c : ascii) (s t : string) : String c s ++ t = String c (s ++ t).
Proof. reflexivity. Qed.

Lemma append_nil_l (t : string) : "" ++ t = t.
Proof. reflexivity. Qed.



Lemma append_empty_r (s : string) : s ++ "" = s.
Proof.
  induction s as [|c s IH]; [reflexivity|].
  now rewrite append_cons, IH.
Qed.

Lemma prefix_upper (a b : string) :
  String.prefix a b = true -> String.prefix (Py.upper a) (Py.upper b) = true.
Proof.
  revert b. induction a as [|c a IH]; intros [|d b]; simpl; try easy.
  destruct (ascii_dec c d) as [-> | _]; [|discriminate].
  intros Hp. destruct (ascii_dec (Py.upper_char d) (Py.upper_char d)) as [_|Hne];
    [now apply IH | now destruct Hne].
Qed.

(** [sub in s] implies [sub.upper() in s.upper()]. *)
Lemma contains_upper (sub s : string) :
  Py.contains sub s = true -> Py.contains (Py.upper sub) (Py.upper s) = true.
Proof.
  induction s as [|c s IH]; simpl.
  - rewrite orb_false_r. intros Hp.
    apply (prefix_upper sub "") in Hp. simpl in Hp. now rewrite Hp.
  - intros Hc. apply orb_true_iff in Hc as [Hp | Hc].
    + apply (prefix_upper sub (String c s)) in Hp. simpl in Hp. now rewrite Hp.
    + rewrite (IH Hc). apply orb_true_r.
Qed.

(** *** The driver path *)

(** C5: a request's [pkcs11_path] whose stripped value is not empty is
    used, stripped; otherwise the value of the environment variable
    [PKCS11_LIB] when it is set; otherwise the built-in default path. *)
Theorem lib_path_precedence (C : Config) :
  (forall s, Py.strip s <> "" ->
     get_pkcs11_lib_path C (JStr s) = Ret (Py.strip s)) /\
  (forall custom_path v,
     custom_path = JNull \/ (exists s, custom_path = JStr s /\ Py.strip s = "") ->
     environ C !! "PKCS11_LIB" = Some v ->
     get_pkcs11_lib_path C custom_path = Ret v) /\
  (forall custom_path,
     custom_path = JNull \/ (exists s, custom_path = JStr s /\ Py.strip s = "") ->
     environ C !! "PKCS11_LIB" = None ->
     get_pkcs11_lib_path C custom_path = Ret DEFAULT_PKCS11_LIB).
Proof.
  assert (Hfall : forall custom_path,
             custom_path = JNull \/ (exists s, custom_path = JStr s /\ Py.strip s = "") ->
             get_pkcs11_lib_path C custom_path = Ret (environ_lib_path C)).
  { intros custom_path [-> | (s & -> & Hs)]; [reflexivity|].
    unfold get_pkcs11_lib_path. simpl. rewrite Hs. simpl.
    now destruct (negb (String.eqb s "")). }
  split; [|split].
  - intros s Hs. unfold get_pkcs11_lib_path. simpl.
    destruct (String.eqb_spec s "") as [-> | _]; [now destruct Hs|]. simpl.
    destruct (String.eqb_spec (Py.strip s) "") as [E | _]; [now destruct Hs | reflexivity].
  - intros custom_path v Hc Hv. rewrite (Hfall _ Hc).
    unfold environ_lib_path. now rewrite Hv.
  - intros custom_path Hc Hv. rewrite (Hfall _ Hc).
    unfold environ_lib_path. now rewrite Hv.
Qed.

Lemma lib_path_precedence_witness :
  get_pkcs11_lib_path Sample.config (JStr "  /opt/lib/pkcs11.so ") = Ret "/opt/lib/pkcs11.so"
  /\ get_pkcs11_lib_path
       {| PKCS11_AVAILABLE := true; PYHANKO_AVAILABLE := true;
          environ := {[ "PKCS11_LIB" := "/usr/lib/opensc-pkcs11.so" ]};
          downloads_folder := ""; upload_folder := "" |} (JStr "   ")
     = Ret "/usr/lib/opensc-pkcs11.so"
  /\ get_pkcs11_lib_path Sample.config JNull = Ret DEFAULT_PKCS11_LIB.
Proof.
  split; [|split].
  - apply (proj1 (lib_path_precedence Sample.config) "  /opt/lib/pkcs11.so ").
    vm_compute. discriminate.
  - apply (proj1 (proj2 (lib_path_precedence _)) (JStr "   ")).
    + right. exists "   ". split; reflexivity.
    + reflexivity.
  - apply (proj2 (proj2 (lib_path_precedence Sample.config)) JNull).
    + left. reflexivity.
    + reflexivity.
Defined.

(** *** [/api/status] *)

(** C8: the status report names whether the PKCS#11 binding and the
    signing library were importable, the configured driver path, and
    whether a file exists at that path; it changes nothing. *)
Theorem api_status_report (C : Config) (st : state) :
  exists body,
    api_status C st = (Ret (body, 200), st)
    /\ py_getitem body "pkcs11_available" = Ret (JBool (PKCS11_AVAILABLE C))
    /\ py_getitem body "pyhanko_available" = Ret (JBool (PYHANKO_AVAILABLE C))
    /\ py_getitem body "pkcs11_lib_path"
       = Ret (JStr (default DEFAULT_PKCS11_LIB (environ C !! "PKCS11_LIB")))
    /\ py_getitem body "pkcs11_lib_exists"
       = Ret (JBool (bool_decide
                       (is_Some (fs st !! default DEFAULT_PKCS11_LIB
                                              (environ C !! "PKCS11_LIB"))))).
Proof. eexists. repeat split. Qed.

(** *** Reasoning about computations *)

Lemma preserves_ret {A} (I : state -> Prop) (a : A) : preserves I (ret a).
Proof. intros s H. exact H. Qed.

Lemma preserves_raise {A} (I : state -> Prop) (e : exn) : preserves I (@raise A e).
Proof. intros s H. exact H. Qed.

Lemma preserves_lift {A} (I : state -> Prop) (o : outcome A) : preserves I (lift o).
Proof. intros s H. exact H. Qed.

Lemma preserves_call {A} (I : state -> Prop) (f : list event -> outcome A) :
  preserves I (call f).
Proof. intros s H. exact H. Qed.

Lemma preserves_get_session (I : state -> Prop) : preserves I get_session.
Proof. intros s H. exact H. Qed.

Lemma preserves_get_fs (I : state -> Prop) : preserves I get_fs.
Proof. intros s H. exact H. Qed.

Lemma preserves_bind {A B} (I : state -> Prop) (m : M A) (k : A -> M B) :
  preserves I m -> (forall a, preserves I (k a)) -> preserves I (bind m k).
Proof.
  intros Hm Hk s H. unfold bind. specialize (Hm s H).
  destruct (m s) as [[a|e] s']; simpl in *; [now apply Hk | exact Hm].
Qed.

Lemma preserves_try_except {A} (I : state -> Prop) (m : M A) (h : exn -> M A) :
  preserves I m -> (forall e, preserves I (h e)) -> preserves I (try_except m h).
Proof.
  intros Hm Hh s H. unfold try_except. specialize (Hm s H).
  destruct (m s) as [[a|e] s']; simpl in *; [exact Hm | now apply Hh].
Qed.

Lemma preserves_try_finally {A} (I : state -> Prop) (m : M A) (c : M unit) :
  preserves I m -> preserves I c -> preserves I (try_finally m c).
Proof.
  intros Hm Hc s H. unfold try_finally. specialize (Hm s H).
  destruct (m s) as [r s']; simpl in *. specialize (Hc s' Hm).
  destruct (c s') as [[u|e] s'']; exact Hc.
Qed.

Create HintDb preserves.
#[local] Hint Resolve preserves_ret preserves_raise preserves_lift preserves_call
  preserves_get_session preserves_get_fs : preserves.

(** Breaks a sequence into its steps, up to an assignment to [session]
    or a de-duplication, which need an argument of their own. *)
Ltac preserves_steps :=
  repeat lazymatch goal with
    | |- preserves _ (bind (set_session _) _) => fail
    | |- preserves _ (bind (unique_path _) _) => fail
    | |- preserves _ (bind _ _) => apply preserves_bind; [ | intros ? ]
    | |- preserves _ (try_except _ _) => apply preserves_try_except; [ | intros ? ]
    | |- _ => solve [ auto with preserves ]
    end.

(** The handlers reach their [try] blocks. *)
Lemma api_get_certificate_try (L : PyLib) (C : Config) (K : PyKCS11Lib)
    (data : json) (slot_id : Z) (pin : string) (s : state) :
  cert_reads L C data slot_id pin ->
  api_get_certificate L C K data s
  = try_except (cert_body L C K data slot_id pin) (cert_handlers slot_id) s.
Proof.
  intros (Hav & Hdata & Hslot & (pin_v & Hpin & ->) & Hne).
  unfold api_get_certificate. rewrite Hav, Hdata. simpl.
  unfold bind, lift. unfold obind in Hslot.
  destruct (py_get data "slot" (JInt 2)) as [slot_v|]; [|discriminate].
  rewrite Hslot, Hpin.
  destruct (String.eqb_spec (Py.strip (py_str L pin_v)) "") as [E|_]; [now destruct Hne|].
  reflexivity.
Qed.

Lemma api_sign_pdf_try (L : PyLib) (C : Config) (P : SignLib) (W : OS)
    (rq : sign_request) (pdf_file : upload) (slot_id : Z) (pin : string)
    (g : geometry) (s : state) :
  sign_reads L C rq pdf_file slot_id pin g ->
  api_sign_pdf L C P W rq s
  = try_finally (try_except (sign_try L C P W rq pdf_file slot_id pin g) sign_handlers)
                (sign_finally P) (sign_start s).
Proof.
  intros (Hav & Hpdf & Hslot & -> & Hg & Hne).
  unfold api_sign_pdf. rewrite Hav, Hpdf. simpl.
  unfold bind at 1. unfold lift at 1. rewrite Hslot.
  unfold bind at 1. unfold lift at 1. rewrite Hg.
  destruct (String.eqb_spec (Py.strip (py_str L (form_get (form rq) "pin" (JStr "")))) "")
    as [E|_]; [now destruct Hne|].
  reflexivity.
Qed.

(** *** Session cleanup *)

Lemma tracked_emit (s0 : state) (e : event) :
  (forall slot, e <> EvOpenSession slot) -> preserves (session_tracked s0) (emit e).
Proof.
  intros He s (new & Hlog & Hcl). exists (e :: new). simpl. split.
  - now rewrite Hlog.
  - intros Hs. specialize (Hcl Hs).
    destruct e; try exact Hcl; try reflexivity. now destruct (He slot).
Qed.

Lemma tracked_put_file (s0 : state) (path : string) (f : file) :
  preserves (session_tracked s0) (put_file path f).
Proof. intros s H. exact H. Qed.

Lemma tracked_open {A} (s0 : state) (slot : Z) (k : M A) :
  preserves (session_tracked s0) k ->
  preserves (session_tracked s0)
    (set_session true ;;; emit (EvOpenSession slot) ;;; k).
Proof.
  intros Hk s (new & Hlog & _). unfold bind, set_session, emit. simpl.
  apply Hk. exists (EvOpenSession slot :: new). simpl. split.
  - now rewrite Hlog.
  - discriminate.
Qed.

Lemma tracked_close_session (s0 : state) (P : SignLib) :
  preserves (session_tracked s0) (close_session P).
Proof.
  intros s (new & Hlog & Hcl). unfold close_session, bind, get_session.
  destruct (session s) eqn:Hs.
  - unfold emit, call, set_session. simpl.
    destruct (pk_close P (EvCloseSession :: log s)); simpl;
      exists (EvCloseSession :: new); simpl; (split; [now rewrite Hlog | reflexivity]).
  - simpl. exists new. rewrite Hs. auto.
Qed.

Lemma tracked_add_signature_field (s0 : state) (P : SignLib)
    (pdf_data : list Byte.byte) (g : geometry) :
  preserves (session_tracked s0) (add_signature_field P pdf_data g).
Proof.
  unfold add_signature_field. destruct (visible g); preserves_steps.
  apply tracked_emit. discriminate.
Qed.

Lemma tracked_sign_body (s0 : state) (L : PyLib) (C : Config) (P : SignLib)
    (W : OS) (pdf_file : upload) (f : gmap string string) (slot_id : Z)
    (pin reason location contact : string) (g : geometry) :
  preserves (session_tracked s0)
    (sign_body L C P W pdf_file f slot_id pin reason location contact g).
Proof.
  unfold sign_body. preserves_steps.
  destruct (find (Z.eqb slot_id) _) as [target_slot|]; preserves_steps.
  apply tracked_open. preserves_steps.
  - apply tracked_add_signature_field.
  - apply tracked_emit. discriminate.
  - apply tracked_close_session.
  - apply tracked_put_file.
Qed.

Lemma tracked_sign_handlers (s0 : state) (e : exn) :
  preserves (session_tracked s0) (sign_handlers e).
Proof.
  unfold sign_handlers. destruct (exn_cls e).
  - preserves_steps. apply tracked_emit. discriminate.
  - destruct (Py.contains "PIN" (Py.upper (exn_text e))); preserves_steps.
  - preserves_steps. apply tracked_emit. discriminate.
Qed.

Lemma sign_finally_closes (s0 s : state) (P : SignLib) :
  session_tracked s0 s ->
  fst (sign_finally P s) = Ret tt
  /\ exists new, log (snd (sign_finally P s)) = (new ++ log s0)%list
                 /\ closed new = true.
Proof.
  intros (new & Hlog & Hcl). unfold sign_finally, bind, get_session.
  destruct (session s) eqn:Hs.
  - unfold try_pass, try_except, bind, emit, call. simpl.
    destruct (pk_close P (EvCloseSession :: log s)) as [[]|]; simpl;
      (split; [reflexivity|]); exists (EvCloseSession :: new); simpl;
      (split; [now rewrite Hlog | reflexivity]).
  - simpl. split; [reflexivity|]. exists new. auto.
Qed.

(** X14: the session of [/api/sign]: whatever the request, the libraries
    and the outcome, no session is open when the handler is left. *)
Lemma api_sign_pdf_closes_session (L : PyLib) (C : Config) (P : SignLib)
    (W : OS) (rq : sign_request) (s : state) :
  exists new,
    log (snd (api_sign_pdf L C P W rq s)) = (new ++ log s)%list
    /\ closed new = true.
Proof.
  unfold api_sign_pdf.
  destruct (PYHANKO_AVAILABLE C); simpl; [|now exists []].
  destruct (files_pdf rq) as [pdf_file|]; [|now exists []].
  unfold bind at 1. unfold lift at 1.
  destruct (py_int _) as [slot_id|]; simpl; [|now exists []].
  unfold bind at 1. unfold lift at 1.
  destruct (sign_geometry L (form rq)) as [g|]; simpl; [|now exists []].
  destruct (String.eqb _ ""); [now exists []|].
  unfold bind at 1. simpl. unfold try_finally.
  match goal with |- context [try_except ?m ?h ?st] =>
    assert (Hinv : session_tracked s (snd (try_except m h st)));
    [ apply preserves_try_except;
      [ apply tracked_sign_body | apply tracked_sign_handlers | ];
      exists []; simpl; auto
    | destruct (try_except m h st) as [r s1] ]
  end.
  simpl in Hinv. destruct (sign_finally_closes s s1 P Hinv) as (Hret & new & Hlog & Hcl).
  destruct (sign_finally P s1) as [[u|e] s2]; simpl in *; [|discriminate].
  now exists new.
Qed.

(** C1: a request to [/api/certificate] with a wrong PIN on the sample
    token: the session is opened, the login is refused, the handler
    answers 401 and the session is never closed. *)
Theorem api_get_certificate_leaves_session_open :
  let r := api_get_certificate Sample.lib Sample.config Sample.token
             (Sample.cert_request (JInt 1) (JStr "0000")) Sample.init in
  fst r = Ret (error_body "Incorrect PIN. Please check your PIN and try again.", 401)
  /\ log (snd r) = [EvOpenSession 1]
  /\ closed (log (snd r)) = false.
Proof. vm_compute. repeat split. Qed.

(** *** Errors of the PKCS#11 layer *)

Lemma sign_finally_returns (P : SignLib) (s : state) :
  exists s', sign_finally P s = (Ret tt, s').
Proof.
  unfold sign_finally, bind, get_session. destruct (session s); [|now eexists].
  unfold try_pass, try_except, bind, emit, call. simpl.
  destruct (pk_close P _) as [[]|]; now eexists.
Qed.

(** C4: a PKCS#11 error raised in the [try] block of [/api/certificate]
    is answered according to the return code its text names: 401 for an
    incorrect or a locked PIN, 500 for an absent token, an invalid slot,
    a missing login and for everything else, each with its own message.
    In [/api/sign] a PKCS#11 error is answered with 401 when its text,
    in upper case, contains PIN, and with 500 otherwise; a text that
    contains PIN in any mix of upper and lower case is such a text. *)
Theorem pkcs11_error_classification (L : PyLib) (C : Config) (K : PyKCS11Lib)
    (P : SignLib) (W : OS) :
  (forall data slot_id pin s e s',
     cert_reads L C data slot_id pin ->
     cert_body L C K data slot_id pin s = (Raise e, s') ->
     exn_cls e = PyKCS11Error ->
     exists msg status,
       api_get_certificate L C K data s = (Ret (error_body msg, status), s')
       /\ (mentions "CKR_PIN_INCORRECT" (exn_text e) \/ mentions "CKR_PIN_LOCKED" (exn_text e) ->
           status = 401)
       /\ (~ mentions "CKR_PIN_INCORRECT" (exn_text e) ->
           ~ mentions "CKR_PIN_LOCKED" (exn_text e) -> status = 500)
       /\ (mentions "CKR_PIN_INCORRECT" (exn_text e) ->
           msg = "Incorrect PIN. Please check your PIN and try again.")
       /\ (~ mentions "CKR_PIN_INCORRECT" (exn_text e) ->
           mentions "CKR_PIN_LOCKED" (exn_text e) ->
           msg = "PIN is locked. Too many incorrect attempts.")
       /\ (~ mentions "CKR_PIN_INCORRECT" (exn_text e) ->
           ~ mentions "CKR_PIN_LOCKED" (exn_text e) ->
           (mentions "CKR_TOKEN_NOT_PRESENT" (exn_text e) ->
            msg = "Smart card not detected. Please insert your CEI card.")
           /\ (~ mentions "CKR_TOKEN_NOT_PRESENT" (exn_text e) ->
               mentions "CKR_SLOT_ID_INVALID" (exn_text e) ->
               msg = "Invalid slot " ++ Py.str_int slot_id ++ ". Please click "
                     ++ dquote ++ "Detect Smart Card" ++ dquote
                     ++ " and select the correct slot.")
           /\ (~ mentions "CKR_TOKEN_NOT_PRESENT" (exn_text e) ->
               ~ mentions "CKR_SLOT_ID_INVALID" (exn_text e) ->
               mentions "CKR_USER_NOT_LOGGED_IN" (exn_text e) ->
               msg = "Session expired. Please try again.")
           /\ (~ mentions "CKR_TOKEN_NOT_PRESENT" (exn_text e) ->
               ~ mentions "CKR_SLOT_ID_INVALID" (exn_text e) ->
               ~ mentions "CKR_USER_NOT_LOGGED_IN" (exn_text e) ->
               msg = "Smart card error: " ++ exn_text e)))
  /\
  (forall rq pdf_file slot_id pin g s e s',
     sign_reads L C rq pdf_file slot_id pin g ->
     sign_try L C P W rq pdf_file slot_id pin g (sign_start s) = (Raise e, s') ->
     exn_cls e = PKCS11Error ->
     exists msg status s'',
       api_sign_pdf L C P W rq s = (Ret (error_body msg, status), s'')
       /\ (mentions "PIN" (Py.upper (exn_text e)) ->
           status = 401 /\ msg = "Incorrect PIN or PIN locked")
       /\ (~ mentions "PIN" (Py.upper (exn_text e)) ->
           status = 500
           /\ msg = "Smart card error (" ++ exn_type e ++ "): " ++ exn_text e))
  /\
  (forall sub error_msg,
     Py.upper sub = "PIN" -> mentions sub error_msg ->
     mentions "PIN" (Py.upper error_msg)).
Proof.
  split; [|split].
  3: { intros sub error_msg <- Hsub. now apply contains_upper. }
  - intros data slot_id pin s e s' Hreads Hbody Hcls.
    rewrite (api_get_certificate_try L C K data slot_id pin s Hreads).
    unfold try_except. rewrite Hbody. unfold cert_handlers. rewrite Hcls.
    unfold ret, cert_pkcs11_error, mentions.
    destruct (Py.contains "CKR_PIN_INCORRECT" (exn_text e));
      [ do 2 eexists; split; [reflexivity|]; intuition congruence |].
    destruct (Py.contains "CKR_PIN_LOCKED" (exn_text e));
      [ do 2 eexists; split; [reflexivity|]; intuition congruence |].
    destruct (Py.contains "CKR_TOKEN_NOT_PRESENT" (exn_text e));
      [ do 2 eexists; split; [reflexivity|]; intuition congruence |].
    destruct (Py.contains "CKR_SLOT_ID_INVALID" (exn_text e));
      [ do 2 eexists; split; [reflexivity|]; intuition congruence |].
    destruct (Py.contains "CKR_USER_NOT_LOGGED_IN" (exn_text e));
      do 2 eexists; (split; [reflexivity|]); intuition congruence.
  - intros rq pdf_file slot_id pin g s e s' Hreads Hbody Hcls.
    rewrite (api_sign_pdf_try L C P W rq pdf_file slot_id pin g s Hreads).
    unfold try_finally, try_except. rewrite Hbody.
    unfold sign_handlers. rewrite Hcls. unfold mentions.
    destruct (Py.contains "PIN" (Py.upper (exn_text e))); unfold ret;
      destruct (sign_finally_returns P s') as (s'' & ->);
      do 3 eexists; (split; [reflexivity|]); intuition congruence.
Qed.

Lemma sample_cert_reads (pin : string) :
  Py.strip pin <> "" ->
  cert_reads Sample.lib Sample.config (Sample.cert_request (JInt 1) (JStr pin)) 1
    (Py.strip pin).
Proof.
  intros Hpin. repeat split; try reflexivity; [|exact Hpin].
  exists (JStr pin). split; reflexivity.
Qed.

Lemma sample_sign_reads (pin : string) :
  Py.strip pin <> "" ->
  sign_reads Sample.lib Sample.config
    (Sample.sign_form [("slot", "1"); ("pin", pin)])
    {| filename := "a.pdf"; content := [Byte.x25; Byte.x50] |} 1 (Py.strip pin)
    {| visible := true; sig_page := 0; sig_x := 50; sig_y := 50;
       sig_width := 200; sig_height := 70 |}.
Proof.
  intros Hpin. repeat split; try reflexivity; exact Hpin.
Qed.

Lemma pkcs11_error_classification_witness :
  (exists msg s',
     api_get_certificate Sample.lib Sample.config Sample.token
       (Sample.cert_request (JInt 1) (JStr "0000")) Sample.init
     = (Ret (error_body msg, 401), s'))
  /\ (exists msg s'',
        api_sign_pdf Sample.lib Sample.config Sample.signer Sample.os
          (Sample.sign_form [("slot", "1"); ("pin", "0000")]) Sample.init
        = (Ret (error_body msg, 401), s''))
  /\ mentions "PIN" (Py.upper "The Pin is blocked").
Proof.
  split; [|split].
  - destruct (proj1 (pkcs11_error_classification Sample.lib Sample.config Sample.token
                       Sample.signer Sample.os)
                (Sample.cert_request (JInt 1) (JStr "0000")) 1 "0000" Sample.init
                Sample.pin_incorrect (State [EvOpenSession 1] ∅ false))
      as (msg & status & Heq & H401 & _).
    + apply (sample_cert_reads "0000"). discriminate.
    + reflexivity.
    + reflexivity.
    + exists msg, (State [EvOpenSession 1] ∅ false).
      rewrite Heq, H401; [reflexivity|]. left. reflexivity.
  - destruct (proj1 (proj2 (pkcs11_error_classification Sample.lib Sample.config
                              Sample.token Sample.signer Sample.os))
                (Sample.sign_form [("slot", "1"); ("pin", "0000")])
                {| filename := "a.pdf"; content := [Byte.x25; Byte.x50] |} 1 "0000"
                {| visible := true; sig_page := 0; sig_x := 50; sig_y := 50;
                   sig_width := 200; sig_height := 70 |}
                Sample.init Sample.pin_error Sample.init)
      as (msg & status & s'' & Heq & H401 & _).
    + apply (sample_sign_reads "0000"). discriminate.
    + reflexivity.
    + reflexivity.
    + exists msg, s''. rewrite Heq.
      destruct H401 as [-> _]; reflexivity.
  - apply (proj2 (proj2 (pkcs11_error_classification Sample.lib Sample.config
                           Sample.token Sample.signer Sample.os)) "Pin");
      reflexivity.
Defined.

(** *** Other exceptions *)

Lemma api_save_files_try (L : PyLib) (C : Config) (W : OS) (data files_data : json)
    (s : state) :
  save_reads data files_data ->
  api_save_files L C W data s
  = try_except (save_body L C W files_data)
      (fun e => print_exc e ;;; ret (error_body (exn_text e), 500)) s.
Proof.
  intros (Hdata & Hin & Hfiles).
  unfold api_save_files. rewrite Hdata. simpl.
  unfold bind at 1. unfold lift at 1. rewrite Hin. simpl.
  unfold bind at 1. unfold lift at 1. rewrite Hfiles. reflexivity.
Qed.





(** *** The signature box *)




(** *** The signature field and the answer of [/api/sign] *)




#[local] Set Warnings "-inexact-float".


(** *** The certificate list *)

Lemma cert_loop_run (L : PyLib) (K : PyKCS11Lib)
    (attrs : nat -> list Byte.byte * raw_label) (certs : list nat)
    (cert_info : list json) (s : state) :
  (forall cert, In cert certs -> kc_getAttributeValue K cert (log s) = Ret (attrs cert)) ->
  cert_loop L K certs cert_info s
  = (Ret (cert_info ++ map (fun cert => cert_entry L (fst (attrs cert)) (snd (attrs cert)))
                          certs)%list, s).
Proof.
  revert cert_info. induction certs as [|cert rest IH]; intros cert_info Hattrs; simpl.
  - now rewrite app_nil_r.
  - unfold bind at 1. unfold call at 1. rewrite (Hattrs cert) by now left.
    rewrite IH by (intros c Hc; apply Hattrs; now right).
    now rewrite <- app_assoc.
Qed.

Lemma existsb_eqb_In (z : Z) (l : list Z) : existsb (Z.eqb z) l = true <-> In z l.
Proof.
  rewrite existsb_exists. split.
  - intros (y & Hy & Heq). apply Z.eqb_eq in Heq. now subst.
  - intros Hin. exists z. split; [exact Hin | apply Z.eqb_refl].
Qed.

(** C6, as the code has it: with a present slot and an accepted PIN the
    answer is the list of the certificates on the token, in order; every
    entry has the label and the DER in base64, and subject, issuer and
    expiry as well when the certificate parses, and only label and DER
    when it does not.  An empty or missing PIN is answered with 400, and
    so is a slot that is not among the present ones. *)
Theorem certificate_list (L : PyLib) (C : Config) (K : PyKCS11Lib) (data : json)
    (slot_id : Z) (s : state) :
  (forall pin lib_path slots certs attrs,
     let l1 := EvOpenSession slot_id :: log s in
     let l2 := EvLogin :: l1 in
     let l3 := EvLogout :: l2 in
     let l4 := EvCloseSession :: l3 in
     cert_reads L C data slot_id pin ->
     obind (py_get data "pkcs11_path" JNull) (get_pkcs11_lib_path C) = Ret lib_path ->
     kc_load K lib_path (log s) = Ret tt ->
     kc_getSlotList K (log s) = Ret slots ->
     In slot_id slots ->
     kc_openSession K slot_id (log s) = Ret tt ->
     kc_login K pin l1 = Ret tt ->
     kc_findObjects K l2 = Ret certs ->
     (forall cert, In cert certs -> kc_getAttributeValue K cert l2 = Ret (attrs cert)) ->
     kc_logout K l3 = Ret tt ->
     kc_closeSession K l4 = Ret tt ->
     api_get_certificate L C K data s
     = (Ret (jsonify [("certificates",
                       JList (map (fun cert => cert_entry L (fst (attrs cert))
                                                 (snd (attrs cert))) certs))], 200),
        State l4 (fs s) (session s)))
  /\ (forall cert_der raw,
        py_getitem (cert_entry L cert_der raw) "label" = Ret (JStr (decode_label L raw))
        /\ py_getitem (cert_entry L cert_der raw) "der_base64"
           = Ret (JStr (b64encode L cert_der))
        /\ (forall subject issuer not_after,
              x509_parse L cert_der = Some (subject, issuer, not_after) ->
              py_getitem (cert_entry L cert_der raw) "subject" = Ret (JStr subject)
              /\ py_getitem (cert_entry L cert_der raw) "issuer" = Ret (JStr issuer)
              /\ py_getitem (cert_entry L cert_der raw) "valid_until"
                 = Ret (JStr not_after))
        /\ (x509_parse L cert_der = None ->
            cert_entry L cert_der raw
            = jsonify [("label", JStr (decode_label L raw));
                       ("der_base64", JStr (b64encode L cert_der))]))
  /\ (forall d,
        PKCS11_AVAILABLE C = true ->
        data = JDict d ->
        obind (py_get data "slot" (JInt 2)) py_int = Ret slot_id ->
        assoc "pin" d = None
        \/ (exists p, assoc "pin" d = Some (JStr p) /\ Py.strip p = "") ->
        exists msg, api_get_certificate L C K data s = (Ret (error_body msg, 400), s))
  /\ (forall pin lib_path slots,
        cert_reads L C data slot_id pin ->
        obind (py_get data "pkcs11_path" JNull) (get_pkcs11_lib_path C) = Ret lib_path ->
        kc_load K lib_path (log s) = Ret tt ->
        kc_getSlotList K (log s) = Ret slots ->
        ~ In slot_id slots ->
        exists msg, api_get_certificate L C K data s = (Ret (error_body msg, 400), s)).
Proof.
  split; [|split; [|split]].
  - intros pin lib_path slots certs attrs l1 l2 l3 l4 Hreads Hpath Hload Hslots Hin
      Hopen Hlogin Hfind Hattrs Hlogout Hclose.
    rewrite (api_get_certificate_try L C K data slot_id pin s Hreads).
    unfold try_except, cert_body.
    unfold obind in Hpath.
    unfold bind at 1. unfold lift at 1.
    destruct (py_get data "pkcs11_path" JNull) as [custom_path|]; [|discriminate].
    unfold bind at 1. unfold lift at 1. rewrite Hpath.
    unfold bind at 1. unfold call at 1. rewrite Hload.
    unfold bind at 1. unfold call at 1. rewrite Hslots.
    rewrite (proj2 (existsb_eqb_In slot_id slots) Hin). cbn [negb].
    unfold bind at 1. unfold call at 1. rewrite Hopen.
    unfold bind at 1. unfold emit at 1. simpl.
    unfold bind at 1. unfold call at 1. simpl. fold l1. rewrite Hlogin.
    unfold bind at 1. unfold emit at 1. simpl.
    unfold bind at 1. unfold call at 1. simpl. fold l2. rewrite Hfind.
    unfold bind at 1.
    rewrite (cert_loop_run L K attrs certs [] (State l2 (fs s) (session s)) Hattrs).
    unfold bind at 1. unfold emit at 1. simpl.
    unfold bind at 1. unfold call at 1. simpl. fold l3. rewrite Hlogout.
    unfold bind at 1. unfold emit at 1. simpl.
    unfold bind at 1. unfold call at 1. simpl. fold l4. rewrite Hclose.
    reflexivity.
  - intros cert_der raw. unfold cert_entry.
    destruct (x509_parse L cert_der) as [[[subject issuer] not_after]|].
    + split; [reflexivity | split; [reflexivity | split]].
      * intros ? ? ? [= <- <- <-]. repeat split.
      * discriminate.
    + split; [reflexivity | split; [reflexivity | split]].
      * discriminate.
      * reflexivity.
  - intros d Hav -> Hslot Hpin. unfold api_get_certificate. rewrite Hav. cbn [negb].
    destruct (truthy (JDict d)) eqn:Htruthy; cbn [negb]; [|now eexists].
    unfold obind in Hslot.
    unfold bind at 1. unfold lift at 1.
    destruct (py_get (JDict d) "slot" (JInt 2)) as [slot_v|]; [|discriminate].
    unfold bind at 1. unfold lift at 1. rewrite Hslot.
    unfold bind at 1. unfold lift at 1. unfold py_get.
    destruct Hpin as [-> | (p & -> & Hp)]; simpl.
    + now eexists.
    + rewrite Hp. now eexists.
  - intros pin lib_path slots Hreads Hpath Hload Hslots Hnot.
    rewrite (api_get_certificate_try L C K data slot_id pin s Hreads).
    unfold try_except, cert_body.
    unfold obind in Hpath.
    unfold bind at 1. unfold lift at 1.
    destruct (py_get data "pkcs11_path" JNull) as [custom_path|]; [|discriminate].
    unfold bind at 1. unfold lift at 1. rewrite Hpath.
    unfold bind at 1. unfold call at 1. rewrite Hload.
    unfold bind at 1. unfold call at 1. rewrite Hslots.
    destruct (existsb (Z.eqb slot_id) slots) eqn:Hex.
    + apply existsb_eqb_In in Hex. now destruct Hnot.
    + simpl. now eexists.
Qed.

Lemma certificate_list_witness :
  (exists entries st,
     api_get_certificate Sample.lib Sample.config Sample.token
       (Sample.cert_request (JInt 1) (JStr "1234")) Sample.init
     = (Ret (jsonify [("certificates", JList entries)], 200), st)
     /\ length entries = 2%nat)
  /\ (exists msg,
        api_get_certificate Sample.lib Sample.config Sample.token
          (JDict [("slot", JInt 1)]) Sample.init
        = (Ret (error_body msg, 400), Sample.init))
  /\ (exists msg,
        api_get_certificate Sample.lib Sample.config Sample.token
          (Sample.cert_request (JInt 7) (JStr "1234")) Sample.init
        = (Ret (error_body msg, 400), Sample.init)).
Proof.
  split; [|split].
  - do 2 eexists. split.
    + apply (proj1 (certificate_list Sample.lib Sample.config Sample.token
                      (Sample.cert_request (JInt 1) (JStr "1234")) 1 Sample.init)
               "1234" DEFAULT_PKCS11_LIB [1] [0%nat; 1%nat]
               (fun cert => match cert with
                            | O => ([Byte.x30; Byte.x31],
                                    LStr "Certificate ECC Advanced Signature")
                            | _ => ([], LNone)
                            end));
        try reflexivity.
      * apply (sample_cert_reads "1234"). discriminate.
      * now left.
      * intros cert [<- | [<- | []]]; reflexivity.
    + reflexivity.
  - apply (proj1 (proj2 (proj2 (certificate_list Sample.lib Sample.config Sample.token
                                  (JDict [("slot", JInt 1)]) 1 Sample.init)))
             [("slot", JInt 1)]); try reflexivity.
    left. reflexivity.
  - apply (proj2 (proj2 (proj2 (certificate_list Sample.lib Sample.config Sample.token
                                  (Sample.cert_request (JInt 7) (JStr "1234")) 7
                                  Sample.init)))
             "1234" DEFAULT_PKCS11_LIB [1]); try reflexivity.
    + repeat split; try reflexivity; [|discriminate].
      exists (JStr "1234"). split; reflexivity.
    + intros [Heq | []]. discriminate.
Defined.

(** C6 as stated fails: the second certificate of the sample token does
    not parse, and its entry in the answer has a label and the DER but
    neither subject nor issuer nor expiry. *)
Lemma unparsed_certificate_has_no_subject :
  fst (api_get_certificate Sample.lib Sample.config Sample.token
         (Sample.cert_request (JInt 1) (JStr "1234")) Sample.init)
  = Ret (jsonify
           [("certificates",
             JList [jsonify [("label", JStr "Certificate ECC Advanced Signature");
                             ("subject", JStr "CN=Ion Popescu");
                             ("issuer", JStr "CN=MAI CA");
                             ("valid_until", JStr "2030-01-01T00:00:00+00:00");
                             ("der_base64", JStr "01")];
                    jsonify [("label", JStr "Unknown");
                             ("der_base64", JStr "")]])], 200)
  /\ assoc "subject" [("label", JStr "Unknown"); ("der_base64", JStr "")] = None
  /\ assoc "issuer" [("label", JStr "Unknown"); ("der_base64", JStr "")] = None
  /\ assoc "valid_until" [("label", JStr "Unknown"); ("der_base64", JStr "")] = None.
Proof. vm_compute. repeat split. Qed.

(** *** File names *)

Lemma length_append (s t : string) :
  String.length (s ++ t) = (String.length s + String.length t)%nat.
Proof.
  induction s as [|c s IH]; [reflexivity|].
  rewrite append_cons. simpl. now rewrite IH.
Qed.

Lemma append_inj_r (s1 s2 e : string) : s1 ++ e = s2 ++ e -> s1 = s2.
Proof.
  revert s2. induction s1 as [|c s1 IH]; intros [|d s2] Heq.
  - reflexivity.
  - apply (f_equal String.length) in Heq.
    rewrite append_nil_l, length_append in Heq. simpl in Heq. lia.
  - apply (f_equal String.length) in Heq.
    rewrite append_nil_l, length_append in Heq. simpl in Heq. lia.
  - rewrite !append_cons in Heq. injection Heq as -> Heq. f_equal. now apply IH.
Qed.

Lemma candidate_inj (base ext : string) (j k : Z) :
  candidate base ext j = candidate base ext k -> j = k.
Proof.
  unfold candidate, Py.str_int. intros Heq.
  apply String.app_inj in Heq. rewrite !append_cons, !append_nil_l in Heq.
  injection Heq as Heq. apply append_inj_r in Heq.
  now apply pretty_Z_inj in Heq.
Qed.

Lemma candidate_longer (base ext : string) (k : Z) :
  base ++ ext <> candidate base ext k.
Proof.
  unfold candidate. intros Heq. apply String.app_inj in Heq.
  apply (f_equal String.length) in Heq.
  rewrite append_cons, append_nil_l in Heq. simpl in Heq.
  rewrite length_append in Heq. lia.
Qed.

Lemma substring_all (p : string) : String.substring 0 (String.length p) p = p.
Proof. induction p as [|c p IH]; simpl; [reflexivity | now rewrite IH]. Qed.

Lemma substring_split (p : string) (n : nat) :
  String.substring 0 n p ++ String.substring n (String.length p - n) p = p.
Proof.
  revert n. induction p as [|c p IH]; intros [|n]; simpl; try reflexivity.
  - rewrite append_nil_l. now rewrite substring_all.
  - rewrite append_cons. now rewrite IH.
Qed.

Lemma splitext_app (p : string) :
  fst (OsPath.splitext p) ++ snd (OsPath.splitext p) = p.
Proof.
  unfold OsPath.splitext.
  destruct (_ && _); simpl; [apply substring_split | apply append_empty_r].
Qed.

Lemma unique_path_loop_delete (fuel : nat) (files : gmap string file)
    (base ext x q : string) (j : Z) :
  q <> x -> (forall i, j <= i -> candidate base ext i <> x) ->
  unique_path_loop fuel (delete x files) base ext q j
  = unique_path_loop fuel files base ext q j.
Proof.
  revert q j. induction fuel as [|fuel IH]; intros q j Hq Hcand; [reflexivity|].
  simpl. unfold path_exists. rewrite lookup_delete_ne by congruence.
  destruct (bool_decide (is_Some (files !! q))); [|reflexivity].
  apply IH.
  - apply Hcand. lia.
  - intros i Hi. apply Hcand. lia.
Qed.

(** The loop ends: with more tests than there are files it finds a free
    name, the first one in the sequence. *)
Lemma unique_path_loop_total (fuel : nat) (files : gmap string file)
    (base ext path : string) (k : Z) :
  (size files < fuel)%nat ->
  (forall i, k <= i -> candidate base ext i <> path) ->
  exists p,
    unique_path_loop fuel files base ext path k = Some p
    /\ files !! p = None
    /\ (p = path
        \/ exists j, k <= j /\ p = candidate base ext j
                     /\ is_Some (files !! path)
                     /\ forall i, k <= i < j -> is_Some (files !! candidate base ext i)).
Proof.
  revert files path k. induction fuel as [|fuel IH]; intros files path k Hsize Hfresh;
    [lia|].
  simpl. unfold path_exists. case_bool_decide as Hex.
  - fold (candidate base ext k).
    rewrite <- (unique_path_loop_delete fuel files base ext path (candidate base ext k) (k + 1)).
    + destruct (IH (delete path files) (candidate base ext k) (k + 1))
        as (p & Hloop & Hfree & Hp).
      * rewrite map_size_delete_Some by exact Hex.
        destruct (size files) eqn:Hsz; [|simpl; lia].
        apply map_size_empty_inv in Hsz. subst files.
        destruct Hex as [c Hc]. now rewrite lookup_empty in Hc.
      * intros i Hi Heq. apply candidate_inj in Heq. lia.
      * exists p. split; [exact Hloop|].
        assert (Hne : path <> p).
        { destruct Hp as [-> | (j & Hj & -> & _)]; intros Heq;
            symmetry in Heq; revert Heq; apply Hfresh; lia. }
        split; [now rewrite lookup_delete_ne in Hfree|].
        right. destruct Hp as [-> | (j & Hj & -> & Hk & Hbefore)].
        -- exists k. split; [lia|]. split; [reflexivity|]. split; [exact Hex|].
           intros i Hi. lia.
        -- exists j. split; [lia|]. split; [reflexivity|]. split; [exact Hex|].
           intros i Hi. destruct (decide (i = k)) as [-> | Hik].
           ++ destruct Hk as [c Hc]. apply lookup_delete_Some in Hc as [_ Hc]. now exists c.
           ++ destruct (Hbefore i ltac:(lia)) as [c Hc].
              apply lookup_delete_Some in Hc as [_ Hc]. now exists c.
    + apply Hfresh. lia.
    + intros i Hi. apply Hfresh. lia.
  - exists path. split; [reflexivity|]. split; [|now left].
    destruct (files !! path) eqn:E; [|reflexivity]. destruct Hex. now eexists.
Qed.

Lemma unique_path_run (path : string) (s : state) :
  exists p, unique_path path s = (Ret p, s) /\ deduplicated (fs s) path p.
Proof.
  unfold unique_path, bind, get_fs.
  pose proof (splitext_app path) as Happ.
  destruct (OsPath.splitext path) as [base ext] eqn:Hsplit. simpl in Happ.
  destruct (unique_path_loop_total (S (size (fs s))) (fs s) base ext path 1)
    as (p & Hloop & Hfree & Hp).
  - lia.
  - intros i _ Heq. rewrite <- Happ in Heq. symmetry in Heq.
    now apply candidate_longer in Heq.
  - exists p. rewrite Hloop. split; [reflexivity|].
    unfold deduplicated. rewrite Hsplit. simpl. split; [exact Hfree | exact Hp].
Qed.

(** *** Paths in a folder *)

Lemma append_assoc (a b c : string) : (a ++ b) ++ c = a ++ b ++ c.
Proof.
  induction a as [|x a IH]; [reflexivity|].
  now rewrite !append_cons, IH.
Qed.

Lemma rfind_from_range (c : ascii) (p : string) (i : Z) :
  0 <= i ->
  OsPath.rfind_from c p i = -1
  \/ i <= OsPath.rfind_from c p i < i + Z.of_nat (String.length p).
Proof.
  revert i. induction p as [|x p IH]; intros i Hi; simpl OsPath.rfind_from; [now left|].
  destruct (IH (i + 1) ltac:(lia)) as [-> | Hr].
  - simpl. destruct (Ascii.eqb x c); [right | now left].
    simpl String.length. lia.
  - destruct (Z.leb_spec 0 (OsPath.rfind_from c p (i + 1))); [|lia].
    right. simpl String.length. lia.
Qed.

Lemma rfind_from_shift (c : ascii) (p : string) (i d : Z) :
  0 <= i -> 0 <= d ->
  OsPath.rfind_from c p (i + d)
  = if 0 <=? OsPath.rfind_from c p i then OsPath.rfind_from c p i + d else -1.
Proof.
  revert i. induction p as [|x p IH]; intros i Hi Hd; simpl OsPath.rfind_from;
    [reflexivity|].
  replace (i + d + 1) with (i + 1 + d) by lia. rewrite IH by lia.
  destruct (Z.leb_spec 0 (OsPath.rfind_from c p (i + 1))) as [Hr|Hr].
  - destruct (Z.leb_spec 0 (OsPath.rfind_from c p (i + 1) + d)); [|lia].
    destruct (Z.leb_spec 0 (OsPath.rfind_from c p (i + 1))); [reflexivity | lia].
  - simpl. destruct (Ascii.eqb x c).
    + destruct (Z.leb_spec 0 i); [reflexivity | lia].
    + reflexivity.
Qed.

Lemma rfind_from_app (c : ascii) (a n : string) (i : Z) :
  0 <= i ->
  OsPath.rfind_from c (a ++ n) i
  = if 0 <=? OsPath.rfind_from c n (i + Z.of_nat (String.length a))
    then OsPath.rfind_from c n (i + Z.of_nat (String.length a))
    else OsPath.rfind_from c a i.
Proof.
  revert i. induction a as [|x a IH]; intros i Hi.
  - rewrite append_nil_l. simpl String.length. rewrite Z.add_0_r.
    destruct (rfind_from_range c n i Hi) as [-> | Hr]; [reflexivity|].
    destruct (Z.leb_spec 0 (OsPath.rfind_from c n i)); [reflexivity | lia].
  - rewrite append_cons. simpl OsPath.rfind_from. rewrite IH by lia.
    change (String.length (String x a)) with (S (String.length a)).
    rewrite Nat2Z.inj_succ.
    replace (i + Z.succ (Z.of_nat (String.length a)))
      with (i + 1 + Z.of_nat (String.length a)) by lia.
    destruct (Z.leb_spec 0 (OsPath.rfind_from c n (i + 1 + Z.of_nat (String.length a))))
      as [Hr|Hr]; [|reflexivity].
    destruct (Z.leb_spec 0 (OsPath.rfind_from c n (i + 1 + Z.of_nat (String.length a))));
      [reflexivity | lia].
Qed.

Lemma rfind_endswith_sep (a : string) :
  OsPath.endswith_sep a = true ->
  OsPath.rfind "/" a = Z.of_nat (String.length a) - 1.
Proof.
  unfold OsPath.rfind. induction a as [|x a IH]; [discriminate|].
  destruct a as [|y a].
  - simpl. intros ->. reflexivity.
  - intros Hend. specialize (IH Hend).
    change (OsPath.rfind_from "/" (String x (String y a)) 0)
      with (let r := OsPath.rfind_from "/" (String y a) (0 + 1) in
            if 0 <=? r then r else if Ascii.eqb x "/" then 0 else -1).
    rewrite (rfind_from_shift "/" (String y a) 0 1) by lia. rewrite IH.
    cbv zeta. change (String.length (String x (String y a))) with (S (S (String.length a))).
    change (String.length (String y a)) with (S (String.length a)).
    destruct (Z.leb_spec 0 (Z.of_nat (S (String.length a)) - 1)); [|lia].
    destruct (Z.leb_spec 0 (Z.of_nat (S (String.length a)) - 1 + 1)); lia.
Qed.

Lemma rfind_dir_prefix (d : string) :
  OsPath.rfind "/" (dir_prefix d) = Z.of_nat (String.length (dir_prefix d)) - 1.
Proof.
  unfold dir_prefix. destruct (String.eqb_spec d "") as [-> | _]; [reflexivity|].
  simpl. destruct (OsPath.endswith_sep d) eqn:Hend; [now apply rfind_endswith_sep|].
  unfold OsPath.rfind. rewrite rfind_from_app by lia. rewrite length_append.
  simpl. destruct (Z.leb_spec 0 (0 + Z.of_nat (String.length d))); lia.
Qed.

Lemma join_dir_prefix (d name : string) :
  String.prefix "/" name = false -> OsPath.join d name = dir_prefix d ++ name.
Proof.
  intros Hn. unfold OsPath.join, dir_prefix. rewrite Hn.
  destruct (_ || _); [reflexivity | now rewrite append_assoc].
Qed.

Lemma get_app_r (a n : string) (i : nat) :
  String.get (String.length a + i) (a ++ n) = String.get i n.
Proof. induction a as [|x a IH]; [reflexivity | exact IH]. Qed.

Lemma has_non_dot_app (a n : string) (i m : nat) :
  OsPath.has_non_dot (a ++ n) (String.length a + i) m = OsPath.has_non_dot n i m.
Proof.
  revert i. induction m as [|m IH]; intros i; simpl; [reflexivity|].
  rewrite get_app_r. destruct (String.get i n) as [c|]; [|reflexivity].
  destruct (Ascii.eqb c "."); [|reflexivity].
  rewrite <- IH. f_equal. lia.
Qed.

Lemma substring_app_l (a n : string) (k : nat) :
  String.substring 0 (String.length a + k) (a ++ n) = a ++ String.substring 0 k n.
Proof.
  induction a as [|x a IH]; [reflexivity|].
  rewrite !append_cons. simpl. now rewrite IH.
Qed.

Lemma substring_app_r (a n : string) (k m : nat) :
  String.substring (String.length a + k) m (a ++ n) = String.substring k m n.
Proof. induction a as [|x a IH]; [reflexivity | exact IH]. Qed.

Lemma rfind_app (c : ascii) (a n : string) :
  OsPath.rfind c (a ++ n)
  = if 0 <=? OsPath.rfind c n then OsPath.rfind c n + Z.of_nat (String.length a)
    else OsPath.rfind c a.
Proof.
  unfold OsPath.rfind. rewrite rfind_from_app by lia.
  rewrite (rfind_from_shift c n 0 (Z.of_nat (String.length a))) by lia.
  destruct (Z.leb_spec 0 (OsPath.rfind_from c n 0)) as [Hr|Hr].
  - destruct (Z.leb_spec 0 (OsPath.rfind_from c n 0 + Z.of_nat (String.length a)));
      [reflexivity | lia].
  - reflexivity.
Qed.

(** The extension of a path is the extension of its last component. *)
Lemma splitext_in_dir (a n : string) :
  OsPath.rfind "/" a = Z.of_nat (String.length a) - 1 ->
  OsPath.rfind "/" n = -1 ->
  OsPath.splitext (a ++ n)
  = (a ++ fst (OsPath.splitext n), snd (OsPath.splitext n)).
Proof.
  intros Ha Hn. unfold OsPath.splitext.
  rewrite (rfind_app "/" a n), (rfind_app "." a n), Hn, Ha.
  replace (0 <=? -1) with false by reflexivity. cbv iota.
  set (D := OsPath.rfind "." n).
  destruct (rfind_from_range "." n 0 ltac:(lia)) as [Hd | Hd]; fold (OsPath.rfind "." n) in Hd;
    fold D in Hd.
  - rewrite Hd. replace (0 <=? -1) with false by reflexivity.
    replace (-1 <? -1) with false by reflexivity. cbn [andb fst snd].
    destruct (rfind_from_range "." a 0 ltac:(lia)) as [Hda | Hda];
      fold (OsPath.rfind "." a) in Hda.
    + rewrite Hda.
      destruct (Z.ltb_spec (Z.of_nat (String.length a) - 1) (-1)); [lia | reflexivity].
    + destruct (Z.ltb_spec (Z.of_nat (String.length a) - 1) (OsPath.rfind "." a));
        [lia | reflexivity].
  - destruct (Z.leb_spec 0 D); [|lia].
    destruct (Z.ltb_spec (Z.of_nat (String.length a) - 1) (D + Z.of_nat (String.length a)));
      [|lia].
    destruct (Z.ltb_spec (-1) D); [|lia].
    replace (Z.to_nat (Z.of_nat (String.length a) - 1 + 1))
      with (String.length a + 0)%nat by lia.
    replace (Z.to_nat (D + Z.of_nat (String.length a) - (Z.of_nat (String.length a) - 1 + 1)))
      with (Z.to_nat D) by lia.
    rewrite has_non_dot_app.
    replace (Z.to_nat (-1 + 1)) with 0%nat by reflexivity.
    replace (Z.to_nat (D - (-1 + 1))) with (Z.to_nat D) by lia.
    cbn [andb]. destruct (OsPath.has_non_dot n 0 (Z.to_nat D)).
    + replace (Z.to_nat (D + Z.of_nat (String.length a)))
        with (String.length a + Z.to_nat D)%nat by lia.
      rewrite substring_app_l, substring_app_r, length_append. cbn [fst snd].
      f_equal. f_equal. lia.
    + reflexivity.
Qed.

(** The names the de-duplication of [name] in the folder [d] can give,
    for a [name] without separator: [name] itself or [name] with a
    number before its extension, in that folder. *)
Lemma deduplicated_in_dir (files : gmap string file) (d name p : string) :
  OsPath.rfind "/" name = -1 ->
  String.prefix "/" name = false ->
  deduplicated files (OsPath.join d name) p ->
  p = dir_prefix d ++ name
  \/ exists j, 1 <= j
               /\ p = dir_prefix d ++ fst (OsPath.splitext name) ++ "_"
                       ++ Py.str_int j ++ snd (OsPath.splitext name).
Proof.
  intros Hsep Hpre [_ Hp]. rewrite (join_dir_prefix d name Hpre) in Hp.
  rewrite (splitext_in_dir (dir_prefix d) name (rfind_dir_prefix d) Hsep) in Hp.
  cbn [fst snd] in Hp. destruct Hp as [-> | (j & Hj & -> & _)]; [now left|].
  right. exists j. split; [exact Hj|]. unfold candidate. now rewrite append_assoc.
Qed.



Lemma zip_path_names (files : gmap string file) (d p : string) :
  deduplicated files (OsPath.join d "signed_documents.zip") p ->
  p = dir_prefix d ++ "signed_documents.zip"
  \/ exists j, 1 <= j
               /\ p = dir_prefix d ++ "signed_documents_" ++ Py.str_int j ++ ".zip".
Proof.
  intros Hp.
  apply (deduplicated_in_dir files d "signed_documents.zip" p) in Hp;
    [exact Hp | reflexivity | reflexivity].
Qed.

(** *** Saving files *)









Lemma zip_loop_run (L : PyLib) (zip_path : string) (items : list json)
    (entries acc : list (string * list Byte.byte)) (s : state) :
  Forall2 (file_entry L) items entries ->
  fs s !! zip_path = Some (Zip acc) ->
  zip_loop L zip_path items s
  = (Ret tt, State (log s) (<[zip_path := Zip (acc ++ entries)]> (fs s)) (session s)).
Proof.
  intros Hall. revert acc s.
  induction Hall as [|file_info [name file_bytes] items entries [Hdata Hname] _ IH];
    intros acc s Hzip.
  - simpl. rewrite app_nil_r, insert_id by exact Hzip. now destruct s.
  - simpl in Hdata, Hname. simpl zip_loop.
    unfold obind in Hdata at 1.
    unfold bind at 1. unfold lift at 1.
    destruct (py_getitem file_info "data") as [data_v|]; [|discriminate].
    unfold bind at 1. unfold lift at 1. rewrite Hdata.
    unfold bind at 1. unfold lift at 1. rewrite Hname.
    unfold bind at 1. unfold zip_writestr at 1.
    unfold bind at 1. unfold get_fs at 1. rewrite Hzip. unfold put_file at 1.
    rewrite (IH (acc ++ [(name, file_bytes)])%list) by (simpl; apply lookup_insert_eq).
    simpl. rewrite insert_insert_eq, <- app_assoc. reflexivity.
Qed.

Lemma bind_run {A B} (m : M A) (k : A -> M B) (a : A) (s s' : state) :
  m s = (Ret a, s') -> bind m k s = k a s'.
Proof. intros H. unfold bind. now rewrite H. Qed.

Lemma lift_run {A} (o : outcome A) (a : A) (s : state) :
  o = Ret a -> lift o s = (Ret a, s).
Proof. now intros ->. Qed.

Lemma call_run {A} (f : list event -> outcome A) (a : A) (s : state) :
  f (log s) = Ret a -> call f s = (Ret a, s).
Proof. unfold call. now intros ->. Qed.


Lemma save_zip_run (L : PyLib) (C : Config) (W : OS) (items : list json)
    (entries : list (string * list Byte.byte)) (s : state) :
  length items <> 1%nat ->
  Forall2 (file_entry L) items entries ->
  exists p,
    deduplicated (fs s) (OsPath.join (downloads_folder C) "signed_documents.zip") p
    /\ (os_open_w W p (log s) = Ret tt ->
        os_reveal W p (EvReveal p :: log s) = Ret tt ->
        save_body L C W (JList items) s
        = (Ret (saved_response p),
           State (EvReveal p :: log s) (<[p := Zip entries]> (fs s)) (session s))).
Proof.
  intros Hlen Hall.
  destruct (unique_path_run (OsPath.join (downloads_folder C) "signed_documents.zip") s)
    as (p & Hrun & Hp).
  exists p. split; [exact Hp|]. intros Hopen Hreveal.
  unfold save_body.
  rewrite (bind_run _ _ (Z.of_nat (length items)) s s) by reflexivity.
  destruct (Z.eqb_spec (Z.of_nat (length items)) 1) as [E|_]; [lia|].
  rewrite (bind_run _ _ p s s) by exact Hrun.
  rewrite (bind_run _ _ tt s s) by (now apply call_run).
  rewrite (bind_run _ _ tt s (State (log s) (<[p := Zip []]> (fs s)) (session s)))
    by reflexivity.
  rewrite (bind_run _ _ items _ (State (log s) (<[p := Zip []]> (fs s)) (session s)))
    by reflexivity.
  rewrite (bind_run _ _ tt _ (State (log s) (<[p := Zip entries]> (fs s)) (session s))).
  2: { rewrite (zip_loop_run L p items entries []) by (try exact Hall; simpl; apply lookup_insert_eq).
       simpl. now rewrite insert_insert_eq. }
  rewrite (bind_run _ _ tt _ (State (EvReveal p :: log s)
                                (<[p := Zip entries]> (fs s)) (session s)))
    by reflexivity.
  rewrite (bind_run _ _ tt _ (State (EvReveal p :: log s)
                                (<[p := Zip entries]> (fs s)) (session s)))
    by (now apply call_run).
  reflexivity.
Qed.


(** C10: a request whose [files] is the empty list passes the checks,
    takes the branch for several files, writes an archive without
    entries under the de-duplicated name of [signed_documents.zip] in
    the Downloads folder and answers with success. *)
Theorem save_files_empty_list (L : PyLib) (C : Config) (W : OS) (data : json)
    (s : state) :
  save_reads data (JList []) ->
  exists p,
    deduplicated (fs s) (OsPath.join (downloads_folder C) "signed_documents.zip") p
    /\ (p = dir_prefix (downloads_folder C) ++ "signed_documents.zip"
        \/ exists j, 1 <= j
                     /\ p = dir_prefix (downloads_folder C) ++ "signed_documents_"
                             ++ Py.str_int j ++ ".zip")
    /\ (os_open_w W p (log s) = Ret tt ->
        os_reveal W p (EvReveal p :: log s) = Ret tt ->
        api_save_files L C W data s
        = (Ret (jsonify [("success", JBool true); ("saved_files", JList [JStr p])], 200),
           State (EvReveal p :: log s) (<[p := Zip []]> (fs s)) (session s))).
Proof.
  intros Hreads.
  destruct (save_zip_run L C W [] [] s ltac:(discriminate) ltac:(constructor))
    as (p & Hp & Hrun).
  exists p. split; [exact Hp|].
  split; [exact (zip_path_names (fs s) (downloads_folder C) p Hp)|].
  intros Hopen Hreveal.
  rewrite (api_save_files_try L C W data _ s Hreads).
  unfold try_except. now rewrite (Hrun Hopen Hreveal).
Qed.

Lemma sample_file_entry (name data : string) :
  file_entry Sample.lib (JDict [("name", JStr name); ("data", JStr data)])
    (name, list_byte_of_string data).
Proof. split; reflexivity. Qed.



Lemma save_files_empty_list_witness :
  exists st,
    api_save_files Sample.lib Sample.config Sample.os (JDict [("files", JList [])])
      Sample.busy
    = (Ret (jsonify [("success", JBool true);
                     ("saved_files",
                      JList [JStr "/Users/ion/Downloads/signed_documents_1.zip"])], 200),
       st)
    /\ fs st !! "/Users/ion/Downloads/signed_documents_1.zip" = Some (Zip [])
    /\ fs st !! "/Users/ion/Downloads/signed_documents.zip" = Some (Zip []).
Proof.
  destruct (save_files_empty_list Sample.lib Sample.config Sample.os
              (JDict [("files", JList [])]) Sample.busy)
    as (p & _ & _ & Hrun).
  - repeat split.
  - specialize (Hrun eq_refl eq_refl).
    assert (Hp : fst (api_save_files Sample.lib Sample.config Sample.os
                        (JDict [("files", JList [])]) Sample.busy)
                 = Ret (saved_response "/Users/ion/Downloads/signed_documents_1.zip"))
      by (vm_compute; reflexivity).
    rewrite Hrun in Hp. injection Hp as ->.
    eexists. split; [exact Hrun|]. split; vm_compute; reflexivity.
Defined.

(** ** Further properties *)

(** *** [/api/slots] *)

Lemma lib_path_of_arg (C : Config) (custom_path : option string) :
  exists lib_path,
    get_pkcs11_lib_path C (match custom_path with Some p => JStr p | None => JNull end)
    = Ret lib_path.
Proof.
  destruct custom_path as [p|]; [|now eexists].
  unfold get_pkcs11_lib_path. destruct (truthy (JStr p)); [|now eexists].
  destruct (negb _); now eexists.
Qed.

Lemma slot_entry_run (T : PyKCS11Info) (slot_id : Z) (s : state) :
  exists entry, slot_entry T slot_id s = (Ret entry, s)
                /\ slot_described T (log s) slot_id entry.
Proof.
  unfold slot_entry, slot_described, try_except, bind, call.
  destruct (kc_getTokenInfo T slot_id (log s)) as [info|e]; eexists; split; reflexivity.
Qed.

Lemma slots_loop_run (T : PyKCS11Info) (slots : list Z) (slot_info : list json)
    (s : state) :
  exists entries,
    slots_loop T slots slot_info s = (Ret (slot_info ++ entries)%list, s)
    /\ Forall2 (slot_described T (log s)) slots entries.
Proof.
  revert slot_info. induction slots as [|slot_id rest IH]; intros slot_info.
  - exists []. simpl. rewrite app_nil_r. split; [reflexivity | constructor].
  - destruct (slot_entry_run T slot_id s) as (entry & Hentry & Hdesc).
    destruct (IH (slot_info ++ [entry])%list) as (entries & Hloop & Hall).
    exists (entry :: entries). simpl. rewrite (bind_run _ _ entry s s Hentry), Hloop.
    rewrite <- app_assoc. split; [reflexivity | now constructor].
Qed.

(** X1: [/api/slots] never raises, always answers with status 200 and
    leaves the state as it is; its answer either carries an error
    message and an empty list of slots, or no error and at least one
    slot. *)
Theorem api_slots_always_answers (C : Config) (K : PyKCS11Lib) (T : PyKCS11Info)
    (custom_path : option string) (s : state) :
  exists body,
    api_slots C K T custom_path s = (Ret (body, 200), s)
    /\ ((exists msg, body = jsonify [("slots", JList []); ("error", JStr msg)])
        \/ (exists entry entries, body = jsonify [("slots", JList (entry :: entries))])).
Proof.
  unfold api_slots.
  destruct (PKCS11_AVAILABLE C); cbn [negb]; [|eexists; split; [reflexivity | left; now eexists]].
  destruct (lib_path_of_arg C custom_path) as (lib_path & Hpath).
  rewrite (bind_run _ _ lib_path s s) by (now apply lift_run).
  rewrite (bind_run _ _ (fs s) s s) by reflexivity.
  destruct (path_exists (fs s) lib_path); cbn [negb];
    [|eexists; split; [reflexivity | left; now eexists]].
  unfold try_except, bind at 1, call at 1.
  destruct (kc_load K lib_path (log s)) as [[]|e].
  - unfold bind at 1, call at 1.
    destruct (kc_getSlotList K (log s)) as [[|slot_id rest]|e].
    + eexists; split; [reflexivity | left; now eexists].
    + destruct (slots_loop_run T (slot_id :: rest) [] s) as (entries & Hloop & Hall).
      rewrite (bind_run _ _ _ s s Hloop). inversion Hall; subst.
      eexists; split; [reflexivity | right; now do 2 eexists].
    + destruct (exn_cls e); eexists; (split; [reflexivity | left; now eexists]).
  - destruct (exn_cls e); eexists; (split; [reflexivity | left; now eexists]).
Qed.

(** X2: when the driver loads and reports slots with a token, the
    answer of [/api/slots] lists them all, in the order of the driver:
    each with its id and the stripped label, model and manufacturer of
    its token, or, when reading the token information raises, with the
    label [Slot <id>] and [Unknown] for model and manufacturer. *)
Theorem api_slots_lists_slots (C : Config) (K : PyKCS11Lib) (T : PyKCS11Info)
    (custom_path : option string) (s : state) (lib_path : string) (slots : list Z) :
  PKCS11_AVAILABLE C = true ->
  get_pkcs11_lib_path C (match custom_path with Some p => JStr p | None => JNull end)
  = Ret lib_path ->
  is_Some (fs s !! lib_path) ->
  kc_load K lib_path (log s) = Ret tt ->
  kc_getSlotList K (log s) = Ret slots ->
  slots <> [] ->
  exists entries,
    api_slots C K T custom_path s = (Ret (jsonify [("slots", JList entries)], 200), s)
    /\ Forall2 (slot_described T (log s)) slots entries.
Proof.
  intros Hav Hpath Hex Hload Hslots Hne. unfold api_slots. rewrite Hav. cbn [negb].
  rewrite (bind_run _ _ lib_path s s) by (now apply lift_run).
  rewrite (bind_run _ _ (fs s) s s) by reflexivity.
  unfold path_exists. rewrite bool_decide_eq_true_2 by exact Hex. cbn [negb].
  unfold try_except.
  rewrite (bind_run _ _ tt s s) by (now apply call_run).
  rewrite (bind_run _ _ slots s s) by (now apply call_run).
  destruct slots as [|slot_id rest]; [now destruct Hne|].
  destruct (slots_loop_run T (slot_id :: rest) [] s) as (entries & Hloop & Hall).
  rewrite (bind_run _ _ _ s s Hloop). exists entries. split; [reflexivity | exact Hall].
Qed.

Lemma api_slots_lists_slots_witness :
  api_slots SampleSlots.config SampleSlots.reader SampleSlots.info None
    SampleSlots.installed
  = (Ret (jsonify
            [("slots",
              JList [jsonify [("id", JInt 1); ("label", JStr "CEI ROMANIA");
                              ("model", JStr "ID-One"); ("manufacturer", JStr "IDEMIA")];
                     jsonify [("id", JInt 3); ("label", JStr "Slot 3");
                              ("model", JStr "Unknown");
                              ("manufacturer", JStr "Unknown")]])], 200),
     SampleSlots.installed).
Proof.
  destruct (api_slots_lists_slots SampleSlots.config SampleSlots.reader SampleSlots.info
              None SampleSlots.installed "/usr/lib/libidplug.so" [1; 3])
    as (entries & Hrun & Hall).
  - reflexivity.
  - reflexivity.
  - now eexists.
  - reflexivity.
  - reflexivity.
  - discriminate.
  - rewrite Hrun.
    inversion Hall as [|? e1 ? l1 H1 Hrest]; subst.
    inversion Hrest as [|? e2 ? l2 H2 Hnil]; subst.
    inversion Hnil; subst.
    unfold slot_described in H1, H2. simpl in H1, H2. subst e1 e2.
    vm_compute. reflexivity.
Defined.

(** *** Answers *)

Lemma returns_ret {A} (Q : A -> Prop) (a : A) : Q a -> returns Q (ret a).
Proof. intros H s a' s' [= <- _]. exact H. Qed.

Lemma returns_bind {A B} (Q : B -> Prop) (m : M A) (k : A -> M B) :
  (forall a, returns Q (k a)) -> returns Q (bind m k).
Proof.
  intros Hk s b s' Hrun. unfold bind in Hrun.
  destruct (m s) as [[a|e] s1]; [now apply (Hk a s1 b s') | discriminate].
Qed.

Lemma answers_ret {A} (Q : A -> Prop) (a : A) : Q a -> answers Q (ret a).
Proof. intros H s. now exists a, s. Qed.

Lemma answers_after_emit {A} (Q : A -> Prop) (e : event) (a : A) :
  Q a -> answers Q (emit e ;;; ret a).
Proof. intros H s. now do 2 eexists. Qed.

Lemma answers_try_except {A} (Q : A -> Prop) (m : M A) (h : exn -> M A) :
  returns Q m -> (forall e, answers Q (h e)) -> answers Q (try_except m h).
Proof.
  intros Hm Hh s. unfold try_except. destruct (m s) as [[a|e] s1] eqn:Hrun.
  - exists a, s1. split; [reflexivity | exact (Hm s a s1 Hrun)].
  - apply Hh.
Qed.

Lemma answers_try_finally {A} (Q : A -> Prop) (m : M A) (c : M unit) :
  answers Q m -> (forall s, exists s', c s = (Ret tt, s')) ->
  answers Q (try_finally m c).
Proof.
  intros Hm Hc s. unfold try_finally. destruct (Hm s) as (a & s1 & -> & Ha).
  destruct (Hc s1) as (s2 & ->). now exists a, s2.
Qed.

(** Follows a computation to each of its [return]s. *)
Ltac returns_steps :=
  repeat lazymatch goal with
    | |- returns _ (bind _ _) => apply returns_bind; intros ?
    | |- returns _ (ret _) => apply returns_ret
    | |- returns _ (if ?b then _ else _) => destruct b
    | |- returns _ (match ?x with _ => _ end) => destruct x
    end.

Lemma returns_cert_body (L : PyLib) (C : Config) (K : PyKCS11Lib) (data : json)
    (slot_id : Z) (pin : string) :
  returns (status_in [200; 400]) (cert_body L C K data slot_id pin).
Proof. unfold cert_body, status_in. returns_steps; simpl; auto. Qed.

Lemma answers_cert_handlers (slot_id : Z) (e : exn) :
  answers (status_in [401; 500]) (cert_handlers slot_id e).
Proof.
  unfold cert_handlers, status_in. destruct (exn_cls e).
  - apply answers_ret. unfold cert_pkcs11_error.
    repeat match goal with
           | |- context [if ?b then _ else _] => destruct b
           end; simpl; auto.
  - apply answers_after_emit. simpl. auto.
  - apply answers_after_emit. simpl. auto.
Qed.

Lemma returns_sign_body (L : PyLib) (C : Config) (P : SignLib) (W : OS)
    (pdf_file : upload) (f : gmap string string) (slot_id : Z)
    (pin reason location contact : string) (g : geometry) :
  returns (status_in [200; 400])
    (sign_body L C P W pdf_file f slot_id pin reason location contact g).
Proof. unfold sign_body, status_in. returns_steps; simpl; auto. Qed.

Lemma answers_sign_handlers (e : exn) :
  answers (status_in [401; 500]) (sign_handlers e).
Proof.
  unfold sign_handlers, status_in. destruct (exn_cls e).
  - apply answers_after_emit. simpl. auto.
  - destruct (Py.contains _ _); apply answers_ret; simpl; auto.
  - apply answers_after_emit. simpl. auto.
Qed.

Lemma answers_weaken {A} (Q Q' : A -> Prop) (m : M A) :
  (forall a, Q a -> Q' a) -> answers Q m -> answers Q' m.
Proof. intros HQ Hm s. destruct (Hm s) as (a & s' & Hrun & Ha). exists a, s'. auto. Qed.

Lemma returns_weaken {A} (Q Q' : A -> Prop) (m : M A) :
  (forall a, Q a -> Q' a) -> returns Q m -> returns Q' m.
Proof. intros HQ Hm s a s' Hrun. apply HQ. exact (Hm s a s' Hrun). Qed.

Lemma status_in_incl (codes codes' : list Z) (r : response) :
  incl codes codes' -> status_in codes r -> status_in codes' r.
Proof. intros Hincl Hr. now apply Hincl. Qed.

(** X3: once [/api/certificate] or [/api/sign] has read its request and
    entered its [try] block, no exception leaves the handler, whatever
    the libraries do: it answers, with status 200, 400, 401 or 500. *)
Theorem handlers_answer_after_reading (L : PyLib) (C : Config) (K : PyKCS11Lib)
    (P : SignLib) (W : OS) :
  (forall data slot_id pin s,
     cert_reads L C data slot_id pin ->
     exists r s', api_get_certificate L C K data s = (Ret r, s')
                  /\ status_in [200; 400; 401; 500] r)
  /\ (forall rq pdf_file slot_id pin g s,
        sign_reads L C rq pdf_file slot_id pin g ->
        exists r s', api_sign_pdf L C P W rq s = (Ret r, s')
                     /\ status_in [200; 400; 401; 500] r).
Proof.
  split.
  - intros data slot_id pin s Hreads.
    rewrite (api_get_certificate_try L C K data slot_id pin s Hreads).
    apply answers_try_except.
    + apply (returns_weaken (status_in [200; 400])); [|apply returns_cert_body].
      intros r. apply status_in_incl. intros z [<- | [<- | []]]; simpl; auto.
    + intros e. apply (answers_weaken (status_in [401; 500])); [|apply answers_cert_handlers].
      intros r. apply status_in_incl. intros z [<- | [<- | []]]; simpl; auto.
  - intros rq pdf_file slot_id pin g s Hreads.
    rewrite (api_sign_pdf_try L C P W rq pdf_file slot_id pin g s Hreads).
    apply answers_try_finally; [|apply sign_finally_returns].
    apply answers_try_except.
    + apply (returns_weaken (status_in [200; 400])); [|apply returns_sign_body].
      intros r. apply status_in_incl. intros z [<- | [<- | []]]; simpl; auto.
    + intros e. apply (answers_weaken (status_in [401; 500])); [|apply answers_sign_handlers].
      intros r. apply status_in_incl. intros z [<- | [<- | []]]; simpl; auto.
Qed.

Lemma handlers_answer_after_reading_witness :
  (exists r s',
     api_get_certificate Sample.lib Sample.config Sample.token
       (Sample.cert_request (JInt 1) (JStr "0000")) Sample.init = (Ret r, s')
     /\ status_in [200; 400; 401; 500] r)
  /\ (exists r s',
        api_sign_pdf Sample.lib Sample.config Sample.failing_signer Sample.os
          (Sample.sign_form [("slot", "1"); ("pin", "1234")]) Sample.init = (Ret r, s')
        /\ status_in [200; 400; 401; 500] r).
Proof.
  split.
  - apply (proj1 (handlers_answer_after_reading Sample.lib Sample.config Sample.token
                    Sample.failing_signer Sample.os)
             (Sample.cert_request (JInt 1) (JStr "0000")) 1 "0000").
    apply (sample_cert_reads "0000"). discriminate.
  - apply (proj2 (handlers_answer_after_reading Sample.lib Sample.config Sample.token
                    Sample.failing_signer Sample.os)
             (Sample.sign_form [("slot", "1"); ("pin", "1234")])
             {| filename := "a.pdf"; content := [Byte.x25; Byte.x50] |} 1 "1234"
             {| visible := true; sig_page := 0; sig_x := 50; sig_y := 50;
                sig_width := 200; sig_height := 70 |}).
    apply (sample_sign_reads "1234"). discriminate.
Defined.

Lemma returns_save_body (L : PyLib) (C : Config) (W : OS) (files_data : json) :
  returns (status_in [200; 400; 500]) (save_body L C W files_data).
Proof. unfold save_body, status_in. returns_steps; simpl; auto. Qed.

(** X4: when the body of a request to [/api/save-files] is a JSON
    object, no exception leaves the handler, whatever the object holds
    and whatever the operating system does: it answers with status 200,
    400 or 500; without a [files] key the answer is 400 and nothing is
    done. *)
Theorem api_save_files_answers_objects (L : PyLib) (C : Config) (W : OS)
    (d : list (string * json)) (s : state) :
  (exists r s', api_save_files L C W (JDict d) s = (Ret r, s')
                /\ status_in [200; 400; 500] r)
  /\ (assoc "files" d = None ->
      api_save_files L C W (JDict d) s = (Ret (error_body "No files provided", 400), s)).
Proof.
  unfold api_save_files.
  destruct (truthy (JDict d)) eqn:Htruthy; cbn [negb].
  - rewrite (bind_run _ _ (bool_decide (is_Some (assoc "files" d))) s s) by reflexivity.
    destruct (assoc "files" d) as [files_data|] eqn:Hfiles.
    + rewrite bool_decide_eq_true_2 by (now eexists). cbn [negb]. split; [|discriminate].
      rewrite (bind_run _ _ files_data s s) by (simpl; now rewrite Hfiles).
      apply answers_try_except; [apply returns_save_body|].
      intros e. apply answers_after_emit. unfold status_in. simpl. auto.
    + rewrite bool_decide_eq_false_2 by (intros [x Hx]; discriminate). cbn [negb].
      split; [|reflexivity]. do 2 eexists. split; [reflexivity|].
      unfold status_in. simpl. auto.
  - split; [|reflexivity]. do 2 eexists. split; [reflexivity|].
    unfold status_in. simpl. auto.
Qed.

Lemma api_save_files_answers_objects_witness :
  api_save_files Sample.lib Sample.config Sample.os
    (JDict [("file", JList [])]) Sample.busy
  = (Ret (error_body "No files provided", 400), Sample.busy).
Proof.
  apply (proj2 (api_save_files_answers_objects Sample.lib Sample.config Sample.os
                  [("file", JList [])] Sample.busy)).
  reflexivity.
Defined.

(** *** What the handlers leave alone *)

Lemma same_files_emit (files : gmap string file) (e : event) :
  preserves (fun s => fs s = files) (emit e).
Proof. intros s H. exact H. Qed.

Lemma same_files_cert_loop (L : PyLib) (K : PyKCS11Lib) (files : gmap string file)
    (certs : list nat) (cert_info : list json) :
  preserves (fun s => fs s = files) (cert_loop L K certs cert_info).
Proof.
  revert cert_info. induction certs as [|cert rest IH]; intros cert_info; simpl;
    preserves_steps.
Qed.

(** X5: [/api/certificate] never writes: whatever the request, the
    token and the outcome, the file system is as before. *)
Theorem api_get_certificate_writes_nothing (L : PyLib) (C : Config)
    (K : PyKCS11Lib) (data : json) (s : state) :
  fs (snd (api_get_certificate L C K data s)) = fs s.
Proof.
  assert (Hp : preserves (fun st => fs st = fs s) (api_get_certificate L C K data)).
  { unfold api_get_certificate.
    destruct (negb (PKCS11_AVAILABLE C)); [auto with preserves|].
    destruct (negb (truthy data)); [auto with preserves|].
    preserves_steps. destruct (String.eqb _ ""); preserves_steps.
    - unfold cert_body. preserves_steps.
      destruct (negb _); preserves_steps;
        try apply same_files_emit. apply same_files_cert_loop.
    - unfold cert_handlers. destruct (exn_cls _); preserves_steps;
        apply same_files_emit. }
  now apply Hp.
Qed.

Lemma other_file_emit (files : gmap string file) (q : string) (e : event) :
  preserves (fun s => fs s !! q = files !! q) (emit e).
Proof. intros s H. exact H. Qed.

Lemma other_file_set_session (files : gmap string file) (q : string) (b : bool) :
  preserves (fun s => fs s !! q = files !! q) (set_session b).
Proof. intros s H. exact H. Qed.

Lemma other_file_put (files : gmap string file) (q path : string) (f : file) :
  q <> path -> preserves (fun s => fs s !! q = files !! q) (put_file path f).
Proof. intros Hne s H. simpl. now rewrite lookup_insert_ne by congruence. Qed.

Lemma other_file_close_session (files : gmap string file) (q : string) (P : SignLib) :
  preserves (fun s => fs s !! q = files !! q) (close_session P).
Proof.
  intros s H. unfold close_session, bind, get_session, emit, call, set_session.
  destruct (session s); [|exact H]. simpl.
  destruct (pk_close P _); exact H.
Qed.

Lemma other_file_sign_finally (files : gmap string file) (q : string) (P : SignLib) :
  preserves (fun s => fs s !! q = files !! q) (sign_finally P).
Proof.
  intros s H. unfold sign_finally, try_pass, try_except, bind, get_session, emit, call.
  destruct (session s); [|exact H]. simpl.
  destruct (pk_close P _); exact H.
Qed.

Lemma other_file_add_signature_field (files : gmap string file) (q : string)
    (P : SignLib) (pdf_data : list Byte.byte) (g : geometry) :
  preserves (fun s => fs s !! q = files !! q) (add_signature_field P pdf_data g).
Proof.
  unfold add_signature_field. destruct (visible g); preserves_steps.
  apply other_file_emit.
Qed.

Lemma other_file_sign_handlers (files : gmap string file) (q : string) (e : exn) :
  preserves (fun s => fs s !! q = files !! q) (sign_handlers e).
Proof.
  unfold sign_handlers. destruct (exn_cls e).
  - preserves_steps. apply other_file_emit.
  - destruct (Py.contains _ _); preserves_steps.
  - preserves_steps. apply other_file_emit.
Qed.

(** X6: the one file [/api/sign] can write is [signed_<name>] in the
    upload folder, [<name>] being the secured name of the upload: every
    other path holds after the request what it held before, whatever
    the request, the libraries and the outcome. *)
Theorem api_sign_pdf_writes_one_file (L : PyLib) (C : Config) (P : SignLib)
    (W : OS) (rq : sign_request) (s : state) (q : string) :
  (forall pdf_file,
     files_pdf rq = Some pdf_file ->
     q <> OsPath.join (upload_folder C)
            ("signed_" ++ secure_filename L (filename pdf_file))) ->
  fs (snd (api_sign_pdf L C P W rq s)) !! q = fs s !! q.
Proof.
  intros Hq.
  assert (Hp : preserves (fun st => fs st !! q = fs s !! q) (api_sign_pdf L C P W rq)).
  { unfold api_sign_pdf.
    destruct (negb (PYHANKO_AVAILABLE C)); [auto with preserves|].
    destruct (files_pdf rq) as [pdf_file|]; [|auto with preserves].
    specialize (Hq pdf_file eq_refl).
    preserves_steps. destruct (String.eqb _ ""); [auto with preserves|].
    apply preserves_bind; [apply other_file_set_session|]. intros _.
    apply preserves_try_finally; [|apply other_file_sign_finally].
    apply preserves_try_except; [|intros e; apply other_file_sign_handlers].
    unfold sign_body. preserves_steps.
    destruct (find _ _); preserves_steps.
    apply preserves_bind; [apply other_file_set_session|]. intros _.
    preserves_steps.
    - apply other_file_emit.
    - apply other_file_add_signature_field.
    - apply other_file_emit.
    - apply other_file_close_session.
    - now apply other_file_put. }
  now apply Hp.
Qed.

Lemma api_sign_pdf_writes_one_file_witness :
  fs (snd (api_sign_pdf Sample.lib Sample.config Sample.signer Sample.os
             (Sample.sign_form [("slot", "1"); ("pin", "1234")]) Sample.busy))
    !! "/Users/ion/Downloads/signed_documents.zip"
  = Some (Zip []).
Proof.
  rewrite (api_sign_pdf_writes_one_file Sample.lib Sample.config Sample.signer Sample.os
             (Sample.sign_form [("slot", "1"); ("pin", "1234")]) Sample.busy
             "/Users/ion/Downloads/signed_documents.zip").
  - reflexivity.
  - intros pdf_file [= <-]. vm_compute. discriminate.
Defined.

(** *** The signature field *)

Lemma emits_only_emit (Q : event -> Prop) (s0 : state) (e : event) :
  Q e -> preserves (emits_only Q s0) (emit e).
Proof.
  intros He s (new & Hlog & Hall). exists (e :: new). simpl.
  split; [now rewrite Hlog | now constructor].
Qed.

Lemma emits_only_set_session (Q : event -> Prop) (s0 : state) (b : bool) :
  preserves (emits_only Q s0) (set_session b).
Proof. intros s H. exact H. Qed.

Lemma emits_only_put_file (Q : event -> Prop) (s0 : state) (path : string) (f : file) :
  preserves (emits_only Q s0) (put_file path f).
Proof. intros s H. exact H. Qed.

Lemma no_field_close_session (s0 : state) (P : SignLib) :
  preserves (emits_only (fun e => ~ is_field_event e) s0) (close_session P).
Proof.
  unfold close_session. preserves_steps.
  match goal with |- preserves _ (if ?b then _ else _) => destruct b end;
    preserves_steps.
  - apply emits_only_emit. simpl. tauto.
  - apply emits_only_set_session.
Qed.

Lemma no_field_sign_finally (s0 : state) (P : SignLib) :
  preserves (emits_only (fun e => ~ is_field_event e) s0) (sign_finally P).
Proof.
  unfold sign_finally. preserves_steps.
  match goal with |- preserves _ (if ?b then _ else _) => destruct b end;
    preserves_steps.
  unfold try_pass. preserves_steps. apply emits_only_emit. simpl. tauto.
Qed.

Lemma no_field_sign_handlers (s0 : state) (e : exn) :
  preserves (emits_only (fun e => ~ is_field_event e) s0) (sign_handlers e).
Proof.
  unfold sign_handlers. destruct (exn_cls e).
  - preserves_steps. apply emits_only_emit. simpl. tauto.
  - destruct (Py.contains _ _); preserves_steps.
  - preserves_steps. apply emits_only_emit. simpl. tauto.
Qed.

(** X7: when the request asks for an invisible signature, no signature
    field is appended to the document, whatever the libraries do and
    however the request ends. *)
Theorem invisible_signature_appends_no_field (L : PyLib) (C : Config) (P : SignLib)
    (W : OS) (rq : sign_request) (pdf_file : upload) (slot_id : Z) (pin : string)
    (g : geometry) (s : state) :
  sign_reads L C rq pdf_file slot_id pin g ->
  visible g = false ->
  exists new,
    log (snd (api_sign_pdf L C P W rq s)) = (new ++ log s)%list
    /\ forall page b, ~ In (EvAppendSigField page b) new.
Proof.
  intros Hreads Hvis.
  rewrite (api_sign_pdf_try L C P W rq pdf_file slot_id pin g s Hreads).
  assert (Hp : preserves (emits_only (fun e => ~ is_field_event e) s)
                 (try_finally
                    (try_except (sign_try L C P W rq pdf_file slot_id pin g) sign_handlers)
                    (sign_finally P))).
  { apply preserves_try_finally; [|apply no_field_sign_finally].
    apply preserves_try_except; [|intros e; apply no_field_sign_handlers].
    unfold sign_try, sign_body. preserves_steps.
    destruct (find _ _); preserves_steps.
    apply preserves_bind; [apply emits_only_set_session|]. intros _.
    preserves_steps.
    - apply emits_only_emit. simpl. tauto.
    - unfold add_signature_field. rewrite Hvis. auto with preserves.
    - apply emits_only_emit. simpl. tauto.
    - apply no_field_close_session.
    - apply emits_only_put_file. }
  destruct (Hp (sign_start s)) as (new & Hlog & Hall).
  { exists []. split; [reflexivity | constructor]. }
  exists new. split; [exact Hlog|].
  intros page b Hin. rewrite Forall_forall in Hall.
  apply list_elem_of_In in Hin. exact (Hall _ Hin I).
Qed.

Lemma invisible_signature_appends_no_field_witness :
  exists new,
    log (snd (api_sign_pdf Sample.lib Sample.config Sample.signer Sample.os
                (Sample.sign_form [("slot", "1"); ("pin", "1234"); ("visible", "false")])
                Sample.init))
    = (new ++ [])%list
    /\ forall page b, ~ In (EvAppendSigField page b) new.
Proof.
  apply (invisible_signature_appends_no_field Sample.lib Sample.config Sample.signer
           Sample.os
           (Sample.sign_form [("slot", "1"); ("pin", "1234"); ("visible", "false")])
           {| filename := "a.pdf"; content := [Byte.x25; Byte.x50] |} 1 "1234"
           {| visible := false; sig_page := 0; sig_x := 50; sig_y := 50;
              sig_width := 200; sig_height := 70 |} Sample.init).
  - repeat split; try reflexivity. discriminate.
  - reflexivity.
Defined.

Lemma bind_raise {A B} (m : M A) (k : A -> M B) (e : exn) (s s' : state) :
  m s = (Raise e, s') -> bind m k s = (Raise e, s').
Proof. intros H. unfold bind. now rewrite H. Qed.

(** X8: when the page of a visible signature box is not a page of the
    document, the handler answers 500 with the message of the
    [IndexError]; the session that was opened is closed, nothing is
    signed and no file is written. *)
Theorem page_out_of_range (L : PyLib) (C : Config) (P : SignLib) (W : OS)
    (rq : sign_request) (pdf_file : upload) (slot_id : Z) (pin : string)
    (g : geometry) (s : state) (lib_path : string) (slots : list Z) (t : Z)
    (kids : list page) :
  let l1 := EvOpenSession t :: log s in
  let e := IndexError "list index out of range" in
  sign_reads L C rq pdf_file slot_id pin g ->
  visible g = true ->
  get_pkcs11_lib_path C (form_get (form rq) "pkcs11_path" JNull) = Ret lib_path ->
  pk_lib P lib_path (log s) = Ret tt ->
  pk_get_slots P (log s) = Ret slots ->
  find (Z.eqb slot_id) slots = Some t ->
  pk_get_token P t (log s) = Ret tt ->
  pk_open P t pin (log s) = Ret tt ->
  hk_signer P l1 = Ret tt ->
  hk_reader P (content pdf_file) l1 = Ret tt ->
  hk_kids P (content pdf_file) = Ret kids ->
  Py.index kids (sig_page g) = None ->
  api_sign_pdf L C P W rq s
  = (Ret (error_body "IndexError: list index out of range", 500),
     State (EvCloseSession :: EvTraceback e :: l1) (fs s) true).
Proof.
  intros l1 e Hreads Hvis Hpath Hlib Hslots Hfind Htoken Hopen Hsigner Hreader Hkids Hpg.
  rewrite (api_sign_pdf_try L C P W rq pdf_file slot_id pin g s Hreads).
  assert (Hfield : add_signature_field P (content pdf_file) g (State l1 (fs s) true)
                   = (Raise e, State l1 (fs s) true)).
  { unfold add_signature_field. rewrite Hvis.
    rewrite (bind_run _ _ kids _ (State l1 (fs s) true)) by (now apply lift_run).
    apply bind_raise. unfold lift, index_or_raise. now rewrite Hpg. }
  assert (Hbody : sign_try L C P W rq pdf_file slot_id pin g (sign_start s)
                  = (Raise e, State l1 (fs s) true)).
  { unfold sign_try, sign_body, sign_start.
    rewrite (bind_run _ _ lib_path _ (State (log s) (fs s) false)) by (now apply lift_run).
    rewrite (bind_run _ _ tt _ (State (log s) (fs s) false)) by (now apply call_run).
    rewrite (bind_run _ _ slots _ (State (log s) (fs s) false)) by (now apply call_run).
    rewrite Hfind.
    rewrite (bind_run _ _ tt _ (State (log s) (fs s) false)) by (now apply call_run).
    rewrite (bind_run _ _ tt _ (State (log s) (fs s) false)) by (now apply call_run).
    rewrite (bind_run _ _ tt _ (State (log s) (fs s) true)) by reflexivity.
    rewrite (bind_run _ _ tt _ (State l1 (fs s) true)) by reflexivity.
    rewrite (bind_run _ _ tt _ (State l1 (fs s) true)) by (now apply call_run).
    rewrite (bind_run _ _ tt _ (State l1 (fs s) true)) by (now apply call_run).
    now apply bind_raise. }
  unfold try_finally, try_except. rewrite Hbody.
  unfold sign_handlers, sign_finally, try_pass, try_except, bind, get_session, emit,
    print_exc, call, ret. simpl.
  destruct (pk_close P _); reflexivity.
Qed.

Lemma page_out_of_range_witness :
  api_sign_pdf Sample.lib Sample.config Sample.signer Sample.os
    (Sample.sign_form [("slot", "1"); ("pin", "1234"); ("page", "3")]) Sample.init
  = (Ret (error_body "IndexError: list index out of range", 500),
     State [EvCloseSession; EvTraceback (IndexError "list index out of range");
            EvOpenSession 1] ∅ true).
Proof.
  apply (page_out_of_range Sample.lib Sample.config Sample.signer Sample.os
           (Sample.sign_form [("slot", "1"); ("pin", "1234"); ("page", "3")])
           {| filename := "a.pdf"; content := [Byte.x25; Byte.x50] |} 1 "1234"
           {| visible := true; sig_page := 2; sig_x := 50; sig_y := 50;
              sig_width := 200; sig_height := 70 |}
           Sample.init DEFAULT_PKCS11_LIB [1] 1 [{| media_box := None |}]);
    try reflexivity.
  repeat split; try reflexivity. discriminate.
Defined.




(** X10: a [signature_boxes] field that decodes to something truthy
    other than a list whose first element is an object does not fall
    back to the form fields: reading the box raises, before the [try]
    block, and the exception leaves the handler with nothing done. *)
Theorem misshapen_signature_boxes_raise (L : PyLib) (C : Config) (P : SignLib)
    (W : OS) (rq : sign_request) (pdf_file : upload) (slot_id : Z) (v : json)
    (s : state) :
  PYHANKO_AVAILABLE C = true ->
  files_pdf rq = Some pdf_file ->
  py_int (form_get (form rq) "slot" (JInt 2)) = Ret slot_id ->
  json_loads L (default "[]" (form rq !! "signature_boxes")) = Some v ->
  truthy v = true ->
  (forall d rest, v <> JList (JDict d :: rest)) ->
  exists e, api_sign_pdf L C P W rq s = (Raise e, s).
Proof.
  intros Hav Hpdf Hslot Hloads Htruthy Hshape.
  assert (Hgeo : exists e, sign_geometry L (form rq) = Raise e).
  { unfold sign_geometry, signature_boxes. rewrite Hloads, Htruthy.
    destruct v as [| b | z | f | str | l | d]; try (now eexists).
    - destruct str as [|c str]; [discriminate|]. now eexists.
    - destruct l as [|b rest]; [discriminate|].
      destruct b as [| | | | | |d]; try (now eexists).
      now destruct (Hshape d rest). }
  destruct Hgeo as (e & Hgeo). exists e.
  unfold api_sign_pdf. rewrite Hav, Hpdf. cbn [negb].
  rewrite (bind_run _ _ slot_id s s) by (now apply lift_run).
  apply bind_raise. unfold lift. now rewrite Hgeo.
Qed.

Lemma misshapen_signature_boxes_raise_witness :
  exists e,
    api_sign_pdf
      {| b64encode := string_of_list_byte;
         b64decode := fun s => Ret (list_byte_of_string s);
         json_loads := fun _ => Some (JDict [("page", JInt 2)]);
         float_of_str := Sample.float_of_digits;
         repr := fun _ => "?";
         utf8_decode := string_of_list_byte;
         x509_parse := fun _ => None;
         secure_filename := fun s => s |}
      Sample.config Sample.signer Sample.os
      (Sample.sign_form [("slot", "1"); ("pin", "1234"); ("signature_boxes", "{..}")])
      Sample.init
    = (Raise e, Sample.init).
Proof.
  apply (misshapen_signature_boxes_raise _ Sample.config Sample.signer Sample.os
           (Sample.sign_form [("slot", "1"); ("pin", "1234"); ("signature_boxes", "{..}")])
           {| filename := "a.pdf"; content := [Byte.x25; Byte.x50] |} 1
           (JDict [("page", JInt 2)]) Sample.init); try reflexivity.
  discriminate.
Defined.

(** *** Failures while saving *)




(** X12: when a single file has been written and revealing it in the
    file browser raises, the answer is 500 with the text of that
    exception although the file is saved. *)
Theorem reveal_failure_after_saving (L : PyLib) (C : Config) (W : OS) (data : json)
    (file_info : json) (name : string) (file_bytes : list Byte.byte) (e : exn)
    (s : state) :
  save_reads data (JList [file_info]) ->
  file_entry L file_info (name, file_bytes) ->
  exists p,
    deduplicated (fs s) (OsPath.join (downloads_folder C) name) p
    /\ (os_open_w W p (log s) = Ret tt ->
        os_reveal W p (EvReveal p :: log s) = Raise e ->
        api_save_files L C W data s
        = (Ret (error_body (exn_text e), 500),
           State (EvTraceback e :: EvReveal p :: log s)
                 (<[p := Plain file_bytes]> (fs s)) (session s))).
Proof.
  intros Hreads [Hdata Hname]. cbn [fst snd] in Hdata, Hname.
  destruct (unique_path_run (OsPath.join (downloads_folder C) name) s) as (p & Hrun & Hp).
  exists p. split; [exact Hp|]. intros Hopen Hreveal.
  rewrite (api_save_files_try L C W data _ s Hreads).
  unfold obind in Hdata at 1.
  destruct (py_getitem file_info "data") as [data_v|] eqn:Hget; [|discriminate].
  assert (Hbody : save_body L C W (JList [file_info]) s
                  = (Raise e, State (EvReveal p :: log s)
                                (<[p := Plain file_bytes]> (fs s)) (session s))).
  { unfold save_body.
    rewrite (bind_run _ _ 1 s s) by reflexivity.
    change (1 =? 1) with true. cbv iota.
    rewrite (bind_run _ _ file_info s s) by reflexivity.
    rewrite (bind_run _ _ name s s) by (now apply lift_run).
    rewrite (bind_run _ _ p s s) by exact Hrun.
    rewrite (bind_run _ _ data_v s s) by (now apply lift_run).
    rewrite (bind_run _ _ file_bytes s s) by (now apply lift_run).
    rewrite (bind_run _ _ tt s s) by (now apply call_run).
    rewrite (bind_run _ _ tt s (State (log s) (<[p := Plain file_bytes]> (fs s)) (session s)))
      by reflexivity.
    rewrite (bind_run _ _ tt _ (State (EvReveal p :: log s)
                                  (<[p := Plain file_bytes]> (fs s)) (session s)))
      by reflexivity.
    apply bind_raise. unfold call. simpl. now rewrite Hreveal. }
  unfold try_except. now rewrite Hbody.
Qed.

Lemma reveal_failure_after_saving_witness :
  exists p st,
    api_save_files Sample.lib Sample.config
      {| os_open_w := fun _ _ => Ret tt;
         os_reveal := fun _ _ =>
           Raise (Exn OtherError "FileNotFoundError"
                    "[Errno 2] No such file or directory: 'open'") |}
      (JDict [("files", JList [JDict [("name", JStr "a.pdf"); ("data", JStr "x")]])])
      Sample.init
    = (Ret (error_body "[Errno 2] No such file or directory: 'open'", 500), st)
    /\ fs st !! p = Some (Plain [Byte.x78]).
Proof.
  destruct (reveal_failure_after_saving Sample.lib Sample.config
              {| os_open_w := fun _ _ => Ret tt;
                 os_reveal := fun _ _ =>
                   Raise (Exn OtherError "FileNotFoundError"
                            "[Errno 2] No such file or directory: 'open'") |}
              (JDict [("files", JList [JDict [("name", JStr "a.pdf"); ("data", JStr "x")]])])
              (JDict [("name", JStr "a.pdf"); ("data", JStr "x")]) "a.pdf" [Byte.x78]
              (Exn OtherError "FileNotFoundError"
                 "[Errno 2] No such file or directory: 'open'") Sample.init)
    as (p & _ & Hrun).
  - repeat split.
  - apply (sample_file_entry "a.pdf" "x").
  - exists p. eexists. split; [apply Hrun; reflexivity|].
    simpl. apply lookup_insert_eq.
Defined.

(** X13: when the one file of a request cannot be read (its name is
    missing or not a string, or its data does not decode), the answer
    is 500 and nothing is written. *)
Theorem unreadable_single_file_writes_nothing (L : PyLib) (C : Config) (W : OS)
    (data : json) (file_info : json) (e : exn) (s : state) :
  save_reads data (JList [file_info]) ->
  file_entry_fails L file_info e ->
  exists e',
    api_save_files L C W data s
    = (Ret (error_body (exn_text e'), 500),
       State (EvTraceback e' :: log s) (fs s) (session s)).
Proof.
  intros Hreads Hfails.
  rewrite (api_save_files_try L C W data _ s Hreads).
  assert (Hbody : exists e', save_body L C W (JList [file_info]) s = (Raise e', s)).
  { unfold save_body.
    rewrite (bind_run _ _ 1 s s) by reflexivity.
    change (1 =? 1) with true. cbv iota.
    rewrite (bind_run _ _ file_info s s) by reflexivity.
    destruct (obind (py_getitem file_info "name") as_str) as [name|e1] eqn:Hname.
    - rewrite (bind_run _ _ name s s) by (now apply lift_run).
      destruct (unique_path_run (OsPath.join (downloads_folder C) name) s)
        as (p & Hrun & _).
      rewrite (bind_run _ _ p s s) by exact Hrun.
      destruct Hfails as [Hdata | [_ Hbad]]; [|congruence].
      exists e. unfold obind in Hdata at 1.
      destruct (py_getitem file_info "data") as [data_v|e2] eqn:Hget.
      + rewrite (bind_run _ _ data_v s s) by (now apply lift_run).
        apply bind_raise. unfold lift. now rewrite Hdata.
      + injection Hdata as ->. now apply bind_raise.
    - exists e1. now apply bind_raise. }
  destruct Hbody as (e' & Hbody). exists e'.
  unfold try_except. now rewrite Hbody.
Qed.

Lemma unreadable_single_file_writes_nothing_witness :
  exists e',
    api_save_files Sample.lib Sample.config Sample.os
      (JDict [("files", JList [JDict [("name", JStr "a.pdf"); ("data", JInt 7)]])])
      Sample.busy
    = (Ret (error_body (exn_text e'), 500),
       State [EvTraceback e'] Sample.busy.(fs) false).
Proof.
  apply (unreadable_single_file_writes_nothing Sample.lib Sample.config Sample.os
           (JDict [("files", JList [JDict [("name", JStr "a.pdf"); ("data", JInt 7)]])])
           (JDict [("name", JStr "a.pdf"); ("data", JInt 7)])
           (TypeError "expected str, not int") Sample.busy).
  - repeat split.
  - left. reflexivity.
Defined.

(** X15: the loop that looks for a free file name ends: one test more
    than there are files, or any larger number of tests, finds the
    de-duplicated name, which no file has. *)
Theorem unique_name_found (files : gmap string file) (path : string) (fuel : nat) :
  (size files < fuel)%nat ->
  exists p,
    unique_path_loop fuel files (fst (OsPath.splitext path))
      (snd (OsPath.splitext path)) path 1 = Some p
    /\ deduplicated files path p.
Proof.
  intros Hfuel.
  destruct (unique_path_loop_total fuel files (fst (OsPath.splitext path))
              (snd (OsPath.splitext path)) path 1 Hfuel)
    as (p & Hloop & Hfree & Hp).
  - intros i _ Heq. rewrite <- (splitext_app path) in Heq at 3. symmetry in Heq.
    now apply candidate_longer in Heq.
  - exists p. split; [exact Hloop|]. split; [exact Hfree | exact Hp].
Qed.

Lemma unique_name_found_witness :
  exists p,
    unique_path_loop 5 Sample.busy.(fs) "/Users/ion/Downloads/signed_documents" ".zip"
      "/Users/ion/Downloads/signed_documents.zip" 1 = Some p
    /\ Sample.busy.(fs) !! p = None.
Proof.
  destruct (unique_name_found Sample.busy.(fs)
              "/Users/ion/Downloads/signed_documents.zip" 5)
    as (p & Hloop & Hfree & _).
  - vm_compute. lia.
  - exists p. split; [exact Hloop | exact Hfree].
Defined.
